(** * TRANSCRYPT 2.0 front-end: the Stellar payment flow and the transaction list

    A shallow embedding of
    - [Frontend/src/lib/stellar-client.ts]       (class [StellarTrader]),
    - [Frontend/src/components/ui/stellar-trade-executor.tsx]
                                                  (the handlers of [StellarTradeExecutor]),
    - the transaction-list component             ([TransactionList]),
    and the properties the specification states about them.

    The code is asynchronous JavaScript that talks to a Horizon server through
    the stellar-sdk.  Every [await] is modelled sequentially (one request in
    flight, as the UI enforces through [isExecuting]); effects are threaded
    through a state-and-exception monad [Js] over a [World] that holds the
    singleton trader, the component state, the browser's local storage, the
    console, the toasts, and the log of requests sent to Horizon.  What the
    stellar-sdk, the Horizon server and the JavaScript runtime do is not code of
    this repository: it enters as the fields of the classes [JsRuntime] and
    [StellarSdk], and every theorem holds for all their instances. *)

From Stdlib Require Import Ascii.
From stdpp Require Import base option strings list gmap pretty.

Local Open Scope string_scope.
Local Open Scope list_scope.

(** ** JavaScript values *)

(** A string is falsy exactly when it is empty. *)
Definition truthy (s : string) : bool :=
  match s with
  | EmptyString => false
  | String _ _ => true
  end.

(** [o || d] for a possibly undefined string [o]. *)
Definition or_else (o : option string) (d : string) : string :=
  match o with
  | Some s => if truthy s then s else d
  | None => d
  end.

(** [`${o}`] for a possibly undefined string. *)
Definition interpolate (o : option string) : string :=
  match o with
  | Some s => s
  | None => "undefined"
  end.

(** The body of an HTTP error response, [error.response]. *)
Record HttpResponse := { data : option string }.

(** A thrown value.  The stellar-sdk and Horizon reject with [Error] objects:
    [message] may be missing or empty, [response] is there for HTTP errors. *)
Record JsError := {
  message : option string;
  response : option HttpResponse
}.

(** [new Error(msg)] *)
Definition new_Error (msg : string) : JsError :=
  {| message := Some msg; response := None |}.

(** [error.response && error.response.data], when truthy. *)
Definition response_data (error : JsError) : option string :=
  match response error with
  | Some r =>
      match data r with
      | Some d => if truthy d then Some d else None
      | None => None
      end
  | None => None
  end.

(** What the JavaScript runtime provides: numbers (IEEE doubles, kept abstract),
    their parsing and formatting, dates, and case conversion. *)
Class JsRuntime := {
  JsNumber : Type;
  number_1 : JsNumber;
  parseFloat : string -> JsNumber;
  Number : string -> JsNumber;
  isNaN : JsNumber -> bool;
  Math_abs : JsNumber -> JsNumber;
  (** [n.toLocaleString('en-US', {minimumFractionDigits: 2, maximumFractionDigits: 2})] *)
  toLocaleString_2 : JsNumber -> string;
  (** [n.toFixed(2)] *)
  toFixed_2 : JsNumber -> string;
  (** [new Date(s).getTime()], a number that may be NaN *)
  Date_getTime : string -> JsNumber;
  (** [new Date(s).toLocaleDateString('en-US', {year, month: 'short', day})];
      [inl] when the call throws *)
  toLocaleDateString : string -> JsError + string;
  toUpperCase : string -> string
}.

(** ** The stellar-sdk and the Horizon server *)

Module Stellar.

(** [Horizon.Server], built from its URL. *)
Record Server := { serverURL : string }.

Record BalanceLine := {
  asset_type : string;
  asset_code : option string;
  balance : string
}.

(** The account record Horizon returns: the sequence number is the account's
    current ledger position. *)
Record AccountResponse := {
  account_id : string;
  sequence : string;
  balances : list BalanceLine
}.

Record SubmitTransactionResponse := { hash : string }.

Inductive Asset :=
| Asset_native
| Asset_credit (code issuer : string).

Record PaymentOptions := {
  destination : string;
  asset : Asset;
  amount : string;
  source : string
}.

Inductive Operation :=
| Operation_payment (opts : PaymentOptions).

Inductive Memo :=
| Memo_text (text : string).

Record TransactionBuilderOptions := {
  fee : string;
  opt_networkPassphrase : string
}.

(** The builder accumulates what the code puts into it. *)
Record TransactionBuilder := {
  tb_sourceAccount : AccountResponse;
  tb_options : TransactionBuilderOptions;
  tb_operations : list Operation;
  tb_memo : option Memo;
  tb_timeout : option Z
}.

Definition TransactionBuilder_new (sourceAccount : AccountResponse)
    (opts : TransactionBuilderOptions) : TransactionBuilder :=
  {| tb_sourceAccount := sourceAccount; tb_options := opts;
     tb_operations := []; tb_memo := None; tb_timeout := None |}.

Definition addOperation (op : Operation) (tb : TransactionBuilder) : TransactionBuilder :=
  {| tb_sourceAccount := tb_sourceAccount tb; tb_options := tb_options tb;
     tb_operations := tb_operations tb ++ [op]; tb_memo := tb_memo tb;
     tb_timeout := tb_timeout tb |}.

Definition addMemo (m : Memo) (tb : TransactionBuilder) : TransactionBuilder :=
  {| tb_sourceAccount := tb_sourceAccount tb; tb_options := tb_options tb;
     tb_operations := tb_operations tb; tb_memo := Some m;
     tb_timeout := tb_timeout tb |}.

Definition setTimeout (seconds : Z) (tb : TransactionBuilder) : TransactionBuilder :=
  {| tb_sourceAccount := tb_sourceAccount tb; tb_options := tb_options tb;
     tb_operations := tb_operations tb; tb_memo := tb_memo tb;
     tb_timeout := Some seconds |}.

(** What the stellar-sdk decides: which secrets are keys, and which arguments
    its constructors reject (by throwing). *)
Class StellarSdk := {
  Keypair : Type;
  Keypair_fromSecret : string -> JsError + Keypair;
  publicKey : Keypair -> string;
  Networks_TESTNET : string;
  Networks_PUBLIC : string;
  (** [new Asset(code, issuer)] throws *)
  Asset_rejects : string -> string -> option JsError;
  (** [Operation.payment(opts)] throws *)
  payment_rejects : PaymentOptions -> option JsError;
  (** [Memo.text(s)] throws *)
  Memo_rejects : string -> option JsError;
  (** [builder.build()] throws *)
  build_rejects : TransactionBuilder -> option JsError
}.

Section Network.

Context {sdk : StellarSdk}.

(** A built transaction: the builder's content and the keys that signed it. *)
Record Transaction := {
  tx_body : TransactionBuilder;
  tx_signatures : list Keypair
}.

Definition sign (kp : Keypair) (tx : Transaction) : Transaction :=
  {| tx_body := tx_body tx; tx_signatures := tx_signatures tx ++ [kp] |}.

(** A request sent to a Horizon server. *)
Inductive Request :=
| LoadAccount (srv : Server) (accountId : string)
| SubmitTransaction (srv : Server) (tx : Transaction).

(** The remote network: its answer to a request may depend on everything
    that was sent before. *)
Record Horizon := {
  loadAccount_reply : list Request -> Server -> string -> JsError + AccountResponse;
  submitTransaction_reply :
    list Request -> Server -> Transaction -> JsError + SubmitTransactionResponse
}.

End Network.

End Stellar.

(** ** Effects: state and exceptions *)

Inductive Outcome (A : Type) :=
| Returned (a : A)
| Thrown (e : JsError).

Arguments Returned {A} a.
Arguments Thrown {A} e.

(** A computation over a state [S] that returns a value or throws. *)
Definition Js (S A : Type) : Type := S -> Outcome A * S.

Section Monad.

Context {S : Type}.

Definition ret {A} (a : A) : Js S A := fun w => (Returned a, w).

Definition throw {A} (e : JsError) : Js S A := fun w => (Thrown e, w).

Definition bind {A B} (m : Js S A) (k : A -> Js S B) : Js S B :=
  fun w =>
    match m w with
    | (Returned a, w') => k a w'
    | (Thrown e, w') => (Thrown e, w')
    end.

(** [try { body } catch (error) { handler }] *)
Definition try_catch {A} (body : Js S A) (handler : JsError -> Js S A) : Js S A :=
  fun w =>
    match body w with
    | (Returned a, w') => (Returned a, w')
    | (Thrown e, w') => handler e w'
    end.

(** [try { body } finally { cleanup }] *)
Definition try_finally {A} (body : Js S A) (cleanup : Js S unit) : Js S A :=
  fun w =>
    match body w with
    | (o, w') =>
        match cleanup w' with
        | (Returned _, w'') => (o, w'')
        | (Thrown e, w'') => (Thrown e, w'')
        end
    end.

Definition get : Js S S := fun w => (Returned w, w).

Definition modify (f : S -> S) : Js S unit := fun w => (Returned tt, f w).

(** A call into a library that returns or throws. *)
Definition call {A} (r : JsError + A) : Js S A :=
  match r with
  | inl e => throw e
  | inr a => ret a
  end.

(** A call into a library made for its check alone. *)
Definition check (r : option JsError) : Js S unit :=
  match r with
  | Some e => throw e
  | None => ret tt
  end.

End Monad.

Declare Scope js_scope.

Notation "x <- m ;; k" := (bind m (fun x => k))
  (at level 100, m at next level, k at level 200, right associativity) : js_scope.
Notation "m ;;; k" := (bind m (fun _ => k))
  (at level 100, k at level 200, right associativity) : js_scope.
Delimit Scope js_scope with js.
Local Open Scope js_scope.

(** A computation keeps a relation between the state it starts in and the
    state it ends in, whatever it returns or throws. *)
Definition preserves {S A} (R : S -> S -> Prop) (m : Js S A) : Prop :=
  forall w, R w (snd (m w)).

(** ** The state of the page *)

Inductive LogArg :=
| log_string (s : string)
| log_error (e : JsError).

Inductive ToastKind := toast_success | toast_error | toast_warning.

Record Toast := { toast_kind : ToastKind; toast_message : string }.

Module StellarClient.

Import Stellar.

Section Client.

Context {rt : JsRuntime} {sdk : StellarSdk}.

Inductive Status := pending | completed | failed.

Record TradeResult := {
  id : string;
  fromAsset : string;
  toAsset : string;
  amount : JsNumber;
  rate : JsNumber;
  timestamp : Z;
  hash : string;
  status : Status
}.

Inductive Network := testnet | public.

Record StellarTrader := {
  server : Server;
  keypair : option Keypair;
  networkPassphrase : string
}.

(** [constructor(network = 'testnet')] *)
Definition StellarTrader_new (network : option Network) : StellarTrader :=
  let network := default testnet network in
  let serverUrl :=
    match network with
    | testnet => "https://horizon-testnet.stellar.org"
    | public => "https://horizon.stellar.org"
    end in
  {| server := {| serverURL := serverUrl |};
     keypair := None;
     networkPassphrase :=
       match network with
       | testnet => Networks_TESTNET
       | public => Networks_PUBLIC
       end |}.

(** [const stellarTrader = new StellarTrader('testnet')] *)
Definition stellarTrader : StellarTrader := StellarTrader_new (Some testnet).

(** The page: the singleton trader, what has been sent to Horizon, the
    console, the clock, the browser's local storage, the toasts shown, and the
    state [U] of the mounted component. *)
Record World (U : Type) := {
  trader : StellarTrader;
  horizon_log : list Request;
  console : list (list LogArg);
  clock : Z;
  localStorage : gmap string string;
  toasts : list Toast;
  component : U
}.

Arguments trader {U} _.
Arguments horizon_log {U} _.
Arguments console {U} _.
Arguments clock {U} _.
Arguments localStorage {U} _.
Arguments toasts {U} _.
Arguments component {U} _.

Context (net : Horizon) {U : Type}.

Definition set_keypair (kp : Keypair) (w : World U) : World U :=
  {| trader := {| server := server (trader w); keypair := Some kp;
                  networkPassphrase := networkPassphrase (trader w) |};
     horizon_log := horizon_log w; console := console w; clock := clock w;
     localStorage := localStorage w; toasts := toasts w;
     component := component w |}.

Definition sent (r : Request) (w : World U) : World U :=
  {| trader := trader w; horizon_log := horizon_log w ++ [r];
     console := console w; clock := clock w;
     localStorage := localStorage w; toasts := toasts w;
     component := component w |}.

Definition logged (line : list LogArg) (w : World U) : World U :=
  {| trader := trader w; horizon_log := horizon_log w;
     console := console w ++ [line]; clock := clock w;
     localStorage := localStorage w; toasts := toasts w;
     component := component w |}.

(** [console.error(...line)] *)
Definition console_error (line : list LogArg) : Js (World U) unit :=
  modify (logged line).

(** [await server.loadAccount(accountId)]: the request goes out, then the
    network answers. *)
Definition server_loadAccount (srv : Server) (accountId : string)
    : Js (World U) AccountResponse :=
  w <- get ;;
  modify (sent (LoadAccount srv accountId)) ;;;
  call (loadAccount_reply net (horizon_log w) srv accountId).

(** [await server.submitTransaction(tx)] *)
Definition server_submitTransaction (srv : Server) (tx : Transaction)
    : Js (World U) SubmitTransactionResponse :=
  w <- get ;;
  modify (sent (SubmitTransaction srv tx)) ;;;
  call (submitTransaction_reply net (horizon_log w) srv tx).

(** [isReady()] *)
Definition isReady : Js (World U) bool :=
  w <- get ;;
  ret (match keypair (trader w) with Some _ => true | None => false end).

(** [connect(secretKey)] *)
Definition connect (secretKey : string) : Js (World U) bool :=
  try_catch
    (kp <- call (Keypair_fromSecret secretKey) ;;
     modify (set_keypair kp) ;;;
     ret true)
    (fun error =>
       console_error [log_string "Failed to connect with secret key:"; log_error error] ;;;
       ret false).

(** The balances [getAccountBalance] returns. *)
Record Balances := { xlm : string; usd : string }.

(** [new Date()] *)
Definition Date_now : Js (World U) Z :=
  w <- get ;;
  ret (clock w).

(** [executePayment(destination, amount, assetCode = 'XLM', memo = '')].
    [this.keypair] is read once: no other code runs between the reads. *)
Definition executePayment (destination amount : string)
    (assetCode memo : option string) : Js (World U) TradeResult :=
  let assetCode := default "XLM" assetCode in
  let memo := default "" memo in
  this <- get ;;
  match keypair (trader this) with
  | None =>
      throw (new_Error "Not connected. Call connect() with a valid secret key first.")
  | Some kp =>
      try_catch
        ((* Load the source account to get the current sequence number *)
         sourceAccount <- server_loadAccount (server (trader this)) (publicKey kp) ;;
         (* Create transaction builder *)
         let transaction :=
           TransactionBuilder_new sourceAccount
             {| fee := "100";
                opt_networkPassphrase := networkPassphrase (trader this) |} in
         (* Add payment operation *)
         asset <- (if String.eqb assetCode "XLM" then ret Asset_native
                   else check (Asset_rejects assetCode (publicKey kp)) ;;;
                        ret (Asset_credit assetCode (publicKey kp))) ;;
         let opts :=
           {| destination := destination; asset := asset;
              Stellar.amount := amount; source := publicKey kp |} in
         check (payment_rejects opts) ;;;
         let transaction := addOperation (Operation_payment opts) transaction in
         (* Add memo if provided *)
         transaction <- (if truthy memo
                         then check (Memo_rejects memo) ;;;
                              ret (addMemo (Memo_text memo) transaction)
                         else ret transaction) ;;
         (* Set timeout and build the transaction *)
         let transaction := setTimeout 30 transaction in
         check (build_rejects transaction) ;;;
         let builtTransaction := {| tx_body := transaction; tx_signatures := [] |} in
         (* Sign the transaction *)
         let builtTransaction := sign kp builtTransaction in
         (* Submit the transaction to the network *)
         result <- server_submitTransaction (server (trader this)) builtTransaction ;;
         now <- Date_now ;;
         ret {| id := Stellar.hash result;
                fromAsset := assetCode;
                toAsset := "XLM";
                amount := parseFloat amount;
                rate := number_1;
                timestamp := now;
                hash := Stellar.hash result;
                status := completed |})
        (fun error =>
           console_error [log_string "Transaction failed:"; log_error error] ;;;
           match response_data error with
           | Some details => console_error [log_string "Error details:"; log_string details]
           | None => ret tt
           end ;;;
           throw (new_Error ("Payment failed: " +:+ or_else (message error) "Unknown error")))
  end.

(** [balances.find(p)?.balance || '0'] *)
Definition balance_of (p : BalanceLine -> bool) (bs : list BalanceLine) : string :=
  or_else (balance <$> List.find p bs) "0".

(** [getAccountBalance(publicKey)] *)
Definition getAccountBalance (publicKey : string) : Js (World U) Balances :=
  this <- get ;;
  try_catch
    (account <- server_loadAccount (server (trader this)) publicKey ;;
     let xlmBalance :=
       balance_of (fun b => String.eqb (asset_type b) "native") (balances account) in
     let usdBalance :=
       balance_of (fun b => match asset_code b with
                            | Some c => String.eqb c "USD"
                            | None => false
                            end) (balances account) in
     ret {| xlm := xlmBalance; usd := usdBalance |})
    (fun error =>
       console_error [log_string "Failed to get account balance:"; log_error error] ;;;
       throw (new_Error ("Failed to get account balance: "
                         +:+ or_else (message error) "Unknown error"))).

End Client.


Arguments trader {_ _} _.
Arguments horizon_log {_ _} _.
Arguments console {_ _} _.
Arguments clock {_ _} _.
Arguments localStorage {_ _} _.
Arguments toasts {_ _} _.
Arguments component {_ _} _.

End StellarClient.

(** ** The payment form: [StellarTradeExecutor] *)

Module StellarTradeExecutor.

Import Stellar StellarClient.

Section Executor.

Context {rt : JsRuntime} {sdk : StellarSdk} (net : Horizon).

Inductive StellarStatus := disconnected | connected.

(** The component's [useState] cells. *)
Record State := {
  amount : string;
  fromCurrency : string;
  toCurrency : string;
  destination : string;
  memo : string;
  showPaymentDialog : bool;
  isExecuting : bool;
  stellarStatus : StellarStatus;
  balance : option Balances;
  isLoading : bool;
  lastTrade : option TradeResult
}.

Definition initialState : State :=
  {| amount := ""; fromCurrency := "XLM"; toCurrency := "XLM";
     destination := ""; memo := ""; showPaymentDialog := false;
     isExecuting := false; stellarStatus := disconnected; balance := None;
     isLoading := false; lastTrade := None |}.

Definition update (f : State -> State) : Js (World State) unit :=
  modify (fun w =>
    {| trader := trader w; horizon_log := horizon_log w; console := console w;
       clock := clock w; localStorage := localStorage w; toasts := toasts w;
       component := f (component w) |}).

Definition setAmount (v : string) : Js (World State) unit :=
  update (fun st =>
    {| amount := v; fromCurrency := fromCurrency st; toCurrency := toCurrency st;
       destination := destination st; memo := memo st;
       showPaymentDialog := showPaymentDialog st; isExecuting := isExecuting st;
       stellarStatus := stellarStatus st; balance := balance st;
       isLoading := isLoading st; lastTrade := lastTrade st |}).

Definition setDestination (v : string) : Js (World State) unit :=
  update (fun st =>
    {| amount := amount st; fromCurrency := fromCurrency st; toCurrency := toCurrency st;
       destination := v; memo := memo st;
       showPaymentDialog := showPaymentDialog st; isExecuting := isExecuting st;
       stellarStatus := stellarStatus st; balance := balance st;
       isLoading := isLoading st; lastTrade := lastTrade st |}).

Definition setMemo (v : string) : Js (World State) unit :=
  update (fun st =>
    {| amount := amount st; fromCurrency := fromCurrency st; toCurrency := toCurrency st;
       destination := destination st; memo := v;
       showPaymentDialog := showPaymentDialog st; isExecuting := isExecuting st;
       stellarStatus := stellarStatus st; balance := balance st;
       isLoading := isLoading st; lastTrade := lastTrade st |}).

Definition setShowPaymentDialog (v : bool) : Js (World State) unit :=
  update (fun st =>
    {| amount := amount st; fromCurrency := fromCurrency st; toCurrency := toCurrency st;
       destination := destination st; memo := memo st;
       showPaymentDialog := v; isExecuting := isExecuting st;
       stellarStatus := stellarStatus st; balance := balance st;
       isLoading := isLoading st; lastTrade := lastTrade st |}).

Definition setIsExecuting (v : bool) : Js (World State) unit :=
  update (fun st =>
    {| amount := amount st; fromCurrency := fromCurrency st; toCurrency := toCurrency st;
       destination := destination st; memo := memo st;
       showPaymentDialog := showPaymentDialog st; isExecuting := v;
       stellarStatus := stellarStatus st; balance := balance st;
       isLoading := isLoading st; lastTrade := lastTrade st |}).

Definition setStellarStatus (v : StellarStatus) : Js (World State) unit :=
  update (fun st =>
    {| amount := amount st; fromCurrency := fromCurrency st; toCurrency := toCurrency st;
       destination := destination st; memo := memo st;
       showPaymentDialog := showPaymentDialog st; isExecuting := isExecuting st;
       stellarStatus := v; balance := balance st;
       isLoading := isLoading st; lastTrade := lastTrade st |}).

Definition setBalance (v : option Balances) : Js (World State) unit :=
  update (fun st =>
    {| amount := amount st; fromCurrency := fromCurrency st; toCurrency := toCurrency st;
       destination := destination st; memo := memo st;
       showPaymentDialog := showPaymentDialog st; isExecuting := isExecuting st;
       stellarStatus := stellarStatus st; balance := v;
       isLoading := isLoading st; lastTrade := lastTrade st |}).

Definition setIsLoading (v : bool) : Js (World State) unit :=
  update (fun st =>
    {| amount := amount st; fromCurrency := fromCurrency st; toCurrency := toCurrency st;
       destination := destination st; memo := memo st;
       showPaymentDialog := showPaymentDialog st; isExecuting := isExecuting st;
       stellarStatus := stellarStatus st; balance := balance st;
       isLoading := v; lastTrade := lastTrade st |}).

Definition setLastTrade (v : option TradeResult) : Js (World State) unit :=
  update (fun st =>
    {| amount := amount st; fromCurrency := fromCurrency st; toCurrency := toCurrency st;
       destination := destination st; memo := memo st;
       showPaymentDialog := showPaymentDialog st; isExecuting := isExecuting st;
       stellarStatus := stellarStatus st; balance := balance st;
       isLoading := isLoading st; lastTrade := v |}).

(** [toast.success], [toast.error], [toast.warning] *)
Definition toast (kind : ToastKind) (msg : string) : Js (World State) unit :=
  modify (fun w =>
    {| trader := trader w; horizon_log := horizon_log w; console := console w;
       clock := clock w; localStorage := localStorage w;
       toasts := toasts w ++ [{| toast_kind := kind; toast_message := msg |}];
       component := component w |}).

(** [localStorage.getItem(key)] *)
Definition localStorage_getItem (key : string) : Js (World State) (option string) :=
  w <- get ;;
  ret (localStorage w !! key).

(** [connectToStellar], run once when the component mounts. *)
Definition connectToStellar : Js (World State) unit :=
  setIsLoading true ;;;
  try_finally
    (try_catch
       (secretKey <- localStorage_getItem "stellar_secret_key" ;;
        match secretKey with
        | Some secretKey =>
            if truthy secretKey then
              is_connected <- connect secretKey ;;
              if is_connected : bool then
                setStellarStatus connected ;;;
                (* Load account balance *)
                accountBalance <- getAccountBalance net secretKey ;;
                setBalance (Some accountBalance) ;;;
                toast toast_success "Connected to Stellar network"
              else ret tt
            else toast toast_warning "Please set your Stellar secret key in the wallet settings"
        | None => toast toast_warning "Please set your Stellar secret key in the wallet settings"
        end)
       (fun error =>
          console_error [log_string "Failed to connect to Stellar network:"; log_error error] ;;;
          toast toast_error ("Connection failed: " +:+ interpolate (message error))))
    (setIsLoading false).

(** The guard of [handleExecutePayment]:
    [!amount || isNaN(Number(amount)) || !destination]. *)
Definition missing_fields (st : State) : bool :=
  negb (truthy (amount st)) || isNaN (Number (amount st)) || negb (truthy (destination st)).

(** [handleExecutePayment], the handler of the dialog's confirm button.  The
    form values are the ones of the render the handler was created in. *)
Definition handleExecutePayment : Js (World State) unit :=
  w <- get ;;
  let st := component w in
  if missing_fields st then
    toast toast_error "Please fill in all required fields"
  else
    setIsExecuting true ;;;
    try_finally
      (try_catch
         ((* Execute payment using the Stellar SDK *)
          result <- executePayment net (destination st) (amount st)
                      (Some (fromCurrency st)) (Some (memo st)) ;;
          setLastTrade (Some result) ;;;
          toast toast_success "Payment executed successfully!" ;;;
          (* Update balance after successful payment *)
          secretKey <- localStorage_getItem "stellar_secret_key" ;;
          match secretKey with
          | Some secretKey =>
              if truthy secretKey then
                accountBalance <- getAccountBalance net secretKey ;;
                setBalance (Some accountBalance)
              else ret tt
          | None => ret tt
          end ;;;
          (* Reset form *)
          setAmount "" ;;;
          setDestination "" ;;;
          setMemo "" ;;;
          setShowPaymentDialog false)
         (fun error =>
            console_error [log_string "Payment failed:"; log_error error] ;;;
            toast toast_error ("Payment failed: " +:+ interpolate (message error))))
      (setIsExecuting false).

(** [handleOpenPaymentDialog] *)
Definition handleOpenPaymentDialog : Js (World State) unit :=
  ready <- isReady ;;
  if negb ready then
    toast toast_error "Please connect your wallet first"
  else
    setShowPaymentDialog true.

(** The balance the header shows:
    [{balance && ... {parseFloat(balance.xlm).toFixed(2)} XLM}]. *)
Definition balance_shown (st : State) : option string :=
  b ← balance st; Some (toFixed_2 (parseFloat (xlm b)) +:+ " XLM").

(** [onValueChange={(value) => setFromCurrency(value)}] and its twin. *)
Definition setFromCurrency (v : string) : Js (World State) unit :=
  update (fun st =>
    {| amount := amount st; fromCurrency := v; toCurrency := toCurrency st;
       destination := destination st; memo := memo st;
       showPaymentDialog := showPaymentDialog st; isExecuting := isExecuting st;
       stellarStatus := stellarStatus st; balance := balance st;
       isLoading := isLoading st; lastTrade := lastTrade st |}).

Definition setToCurrency (v : string) : Js (World State) unit :=
  update (fun st =>
    {| amount := amount st; fromCurrency := fromCurrency st; toCurrency := v;
       destination := destination st; memo := memo st;
       showPaymentDialog := showPaymentDialog st; isExecuting := isExecuting st;
       stellarStatus := stellarStatus st; balance := balance st;
       isLoading := isLoading st; lastTrade := lastTrade st |}).

(** The component mounts: its [useState] cells start from their initial
    values, then the effect runs [connectToStellar].  The trader is a module
    singleton and outlives the component. *)
Definition mount : Js (World State) unit :=
  update (fun _ => initialState) ;;;
  connectToStellar.

(** Code outside the component replaces the content of local storage. *)
Definition storage_changed (storage : gmap string string) : Js (World State) unit :=
  modify (fun w =>
    {| trader := trader w; horizon_log := horizon_log w; console := console w;
       clock := clock w; localStorage := storage; toasts := toasts w;
       component := component w |}).

(** What can happen to the mounted form. *)
Inductive Event :=
| Mounted
| AmountTyped (value : string)
| DestinationTyped (value : string)
| MemoTyped (value : string)
| FromCurrencyPicked (value : string)
| ToCurrencyPicked (value : string)
| SendClicked
| DialogChanged (open : bool)
| ConfirmClicked
| StorageChanged (storage : gmap string string).

(** The handler the JSX attaches to each of them. *)
Definition handler (ev : Event) : Js (World State) unit :=
  match ev with
  | Mounted => mount
  | AmountTyped value => setAmount value
  | DestinationTyped value => setDestination value
  | MemoTyped value => setMemo value
  | FromCurrencyPicked value => setFromCurrency value
  | ToCurrencyPicked value => setToCurrency value
  | SendClicked => handleOpenPaymentDialog
  | DialogChanged open => setShowPaymentDialog open
  | ConfirmClicked => handleExecutePayment
  | StorageChanged storage => storage_changed storage
  end.




(** The [disabled] of the confirm and cancel buttons of the dialog. *)
Definition confirmDisabled (st : State) : bool := isExecuting st.

Section SendButton.

(** [x <= 0] on the runtime's numbers. *)
Context (le_0 : JsNumber -> bool).

(** The [disabled] of the 'Send Payment' button:
    [isExecuting || !amount || !destination || parseFloat(amount) <= 0]. *)
Definition sendDisabled (st : State) : bool :=
  isExecuting st || negb (truthy (amount st)) || negb (truthy (destination st))
  || le_0 (parseFloat (amount st)).

End SendButton.

End Executor.

End StellarTradeExecutor.

(** ** The transaction list: [TransactionList] *)

Module TransactionList.

Section Component.

Context {rt : JsRuntime}.

Inductive TransactionType := sent | received | convert.

Inductive Status := completed | pending | failed.

Record Transaction := {
  id : JsNumber;
  type : TransactionType;
  name : string;
  amount : JsNumber;
  wallet_type : option string;
  crypto_symbol : option string;
  target_currency : option string;
  date : string;
  status : Status
}.

Record TransactionListProps := {
  transactions : list Transaction;
  showViewAll : option bool
}.

(** The string a status is at run time. *)
Definition status_string (s : Status) : string :=
  match s with
  | completed => "completed"
  | pending => "pending"
  | failed => "failed"
  end.

(** [s.charAt(0)] and [s.slice(1)] *)
Definition charAt_0 (s : string) : string :=
  match s with
  | EmptyString => ""
  | String c _ => String c EmptyString
  end.

Definition slice_1 (s : string) : string :=
  match s with
  | EmptyString => ""
  | String _ rest => rest
  end.

(** Derive currency from transaction data *)
Definition getCurrency (transaction : Transaction) : string :=
  match type transaction with
  | convert => or_else (target_currency transaction) "INR"
  | _ => or_else (toUpperCase <$> wallet_type transaction) "UNKNOWN"
  end.

(** Convert string date to Date object and format *)
Definition formatDate (dateStr : string) : string :=
  if isNaN (Date_getTime dateStr) then "Invalid Date"
  else match toLocaleDateString dateStr with
       | inr s => s
       | inl _ => "Invalid Date"
       end.

(** What is drawn in a row's icon slot. *)
Inductive Element :=
| Icon (component className : string)
| Span (text : string).

(** The [default: return null] of the source's [switch] is out of reach of the
    three types. *)
Definition getIcon (ty : TransactionType) : option Element :=
  match ty with
  | sent => Some (Icon "ArrowUpRight" "text-red-500")
  | received => Some (Icon "ArrowDownLeft" "text-green-500")
  | convert => Some (Icon "RefreshCw" "text-blue-500")
  end.

Definition getStatusColor (s : Status) : string :=
  match s with
  | completed => "bg-green-900/30 text-green-500 border-0"
  | pending => "bg-yellow-600/20 text-yellow-500 border-0"
  | failed => "bg-red-900/20 text-red-500 border-0"
  end.

(** One [motion.div] of the list.  In the amount's class the source's last
    alternative, 'text-gray-400', is out of reach of the three types. *)
Record Item := {
  key : JsNumber;
  index : nat;
  icon : Element;
  title : string;
  subtitle : string;
  amountClass : string;
  amountText : string;
  badgeClass : string;
  badgeText : string
}.

Definition renderItem (index : nat) (transaction : Transaction) : Item :=
  {| key := id transaction;
     index := index;
     icon := default (Span "?") (getIcon (type transaction));
     title := or_else (Some (name transaction)) "Unknown";
     subtitle := formatDate (date transaction);
     amountClass :=
       "text-sm font-medium "
       +:+ match type transaction with
           | sent => "text-red-500"
           | received | convert => "text-green-500"
           end;
     amountText :=
       match type transaction with
       | sent => "-"
       | received => "+"
       | convert => ""
       end
       +:+ getCurrency transaction
       +:+ toLocaleString_2 (Math_abs (amount transaction));
     badgeClass := "text-[10px] mt-1 " +:+ getStatusColor (status transaction);
     badgeText :=
       toUpperCase (charAt_0 (status_string (status transaction)))
       +:+ slice_1 (status_string (status transaction)) |}.

(** The list area: the placeholder, or one item per transaction. *)
Inductive Listing :=
| Placeholder (text : string)
| Items (items : list Item).

Record Rendered := {
  heading : string;
  viewAll : bool;
  listing : Listing
}.

(** Reading a name that no import or declaration binds throws. *)
Definition ReferenceError (name : string) : JsError :=
  new_Error (name +:+ " is not defined").

(** The component: a function of its props.  The 'View All' button of the
    header draws [<ArrowRight/>], a name the file never imports (it imports
    [ArrowUpRight], [ArrowDownLeft] and [RefreshCw]): with [showViewAll] on,
    as it is by default, rendering throws before anything is drawn. *)
Definition TransactionList (props : TransactionListProps) : JsError + Rendered :=
  let showViewAll := default true (showViewAll props) in
  if showViewAll then inl (ReferenceError "ArrowRight")
  else
    inr {| heading := "Recent Transactions";
           viewAll := showViewAll;
           listing :=
             match transactions props with
             | [] => Placeholder "No transactions yet"
             | _ :: _ => Items (imap renderItem (transactions props))
             end |}.

(** The items drawn, top to bottom, and their keys. *)
Definition items_shown (r : Rendered) : list Item :=
  match listing r with
  | Placeholder _ => []
  | Items items => items
  end.

Definition keys_shown (r : Rendered) : list JsNumber := key <$> items_shown r.

End Component.

End TransactionList.

(** ** Reading a run *)

Section Reading.

Import Stellar StellarClient.

Context {rt : JsRuntime} {sdk : StellarSdk}.

(** The string a trade result's status is at run time. *)
Definition status_string (s : Status) : string :=
  match s with
  | pending => "pending"
  | completed => "completed"
  | failed => "failed"
  end.

(** The labels a status may carry. *)
Definition status_labels : list string := ["pending"; "completed"; "failed"].

(** The transaction [executePayment] builds from a loaded account and signs,
    or the error the stellar-sdk throws on the way. *)
Definition payment_transaction (this : StellarTrader) (kp : Keypair)
    (sourceAccount : AccountResponse) (destination amount assetCode memo : string)
    : JsError + Transaction :=
  let builder :=
    TransactionBuilder_new sourceAccount
      {| fee := "100"; opt_networkPassphrase := networkPassphrase this |} in
  match (if String.eqb assetCode "XLM" then inr Asset_native
         else match Asset_rejects assetCode (publicKey kp) with
              | Some e => inl e
              | None => inr (Asset_credit assetCode (publicKey kp))
              end) with
  | inl e => inl e
  | inr asset =>
      let opts :=
        {| destination := destination; asset := asset;
           Stellar.amount := amount; source := publicKey kp |} in
      match payment_rejects opts with
      | Some e => inl e
      | None =>
          let builder := addOperation (Operation_payment opts) builder in
          match (if truthy memo
                 then match Memo_rejects memo with
                      | Some e => inl e
                      | None => inr (addMemo (Memo_text memo) builder)
                      end
                 else inr builder) with
          | inl e => inl e
          | inr builder =>
              let builder := setTimeout 30 builder in
              match build_rejects builder with
              | Some e => inl e
              | None => inr (sign kp {| tx_body := builder; tx_signatures := [] |})
              end
          end
      end
  end.

(** The world after the [catch] block of [executePayment] has logged [error]. *)
Definition payment_failure_logged {U} (error : JsError) (w : World U) : World U :=
  let w := logged [log_string "Transaction failed:"; log_error error] w in
  match response_data error with
  | Some details => logged [log_string "Error details:"; log_string details] w
  | None => w
  end.

(** The error the [catch] block of [executePayment] throws for [error]. *)
Definition payment_failed (error : JsError) : JsError :=
  new_Error ("Payment failed: " +:+ or_else (message error) "Unknown error").

(** The error the [catch] block of [getAccountBalance] throws for [error]. *)
Definition balance_failed (error : JsError) : JsError :=
  new_Error ("Failed to get account balance: " +:+ or_else (message error) "Unknown error").

(** The balances read off an account record. *)
Definition balances_of (account : AccountResponse) : Balances :=
  {| xlm := balance_of (fun b => String.eqb (asset_type b) "native") (balances account);
     usd := balance_of (fun b => match asset_code b with
                                 | Some c => String.eqb c "USD"
                                 | None => false
                                 end) (balances account) |}.

Definition is_submit (r : Request) : bool :=
  match r with
  | SubmitTransaction _ _ => true
  | LoadAccount _ _ => false
  end.

(** The validity timeout a request's transaction carries, if it has one. *)
Definition request_timeout (r : Request) : option Z :=
  match r with
  | SubmitTransaction _ tx => tb_timeout (tx_body tx)
  | LoadAccount _ _ => None
  end.

Section Runs.

Context (net : Horizon) {U : Type}.

(** Every run of [executePayment] is one of five. *)
Inductive payment_run (w : World U) (d a : string) (c m : option string)
    : Outcome TradeResult * World U -> Prop :=
| run_not_connected :
    keypair (trader w) = None ->
    payment_run w d a c m
      (Thrown (new_Error "Not connected. Call connect() with a valid secret key first."), w)
| run_load_failed kp e :
    keypair (trader w) = Some kp ->
    loadAccount_reply net (horizon_log w) (server (trader w)) (publicKey kp) = inl e ->
    payment_run w d a c m
      (Thrown (payment_failed e),
       payment_failure_logged e (sent (LoadAccount (server (trader w)) (publicKey kp)) w))
| run_build_failed kp acct e :
    keypair (trader w) = Some kp ->
    loadAccount_reply net (horizon_log w) (server (trader w)) (publicKey kp) = inr acct ->
    payment_transaction (trader w) kp acct d a (default "XLM" c) (default "" m) = inl e ->
    payment_run w d a c m
      (Thrown (payment_failed e),
       payment_failure_logged e (sent (LoadAccount (server (trader w)) (publicKey kp)) w))
| run_submit_failed kp acct tx e :
    keypair (trader w) = Some kp ->
    loadAccount_reply net (horizon_log w) (server (trader w)) (publicKey kp) = inr acct ->
    payment_transaction (trader w) kp acct d a (default "XLM" c) (default "" m) = inr tx ->
    submitTransaction_reply net
      (horizon_log w ++ [LoadAccount (server (trader w)) (publicKey kp)])
      (server (trader w)) tx = inl e ->
    payment_run w d a c m
      (Thrown (payment_failed e),
       payment_failure_logged e
         (sent (SubmitTransaction (server (trader w)) tx)
            (sent (LoadAccount (server (trader w)) (publicKey kp)) w)))
| run_succeeded kp acct tx result :
    keypair (trader w) = Some kp ->
    loadAccount_reply net (horizon_log w) (server (trader w)) (publicKey kp) = inr acct ->
    payment_transaction (trader w) kp acct d a (default "XLM" c) (default "" m) = inr tx ->
    submitTransaction_reply net
      (horizon_log w ++ [LoadAccount (server (trader w)) (publicKey kp)])
      (server (trader w)) tx = inr result ->
    payment_run w d a c m
      (Returned {| id := Stellar.hash result;
                   fromAsset := default "XLM" c;
                   toAsset := "XLM";
                   amount := parseFloat a;
                   rate := number_1;
                   timestamp := clock w;
                   hash := Stellar.hash result;
                   status := completed |},
       sent (SubmitTransaction (server (trader w)) tx)
         (sent (LoadAccount (server (trader w)) (publicKey kp)) w)).

(** A network call of [executePayment] fails with [error]; the list is what
    has been sent to Horizon up to and including the failed request. *)
Inductive payment_network_failure (w : World U) (d a : string) (c m : option string)
    (error : JsError) : list Request -> Prop :=
| load_failure kp :
    keypair (trader w) = Some kp ->
    loadAccount_reply net (horizon_log w) (server (trader w)) (publicKey kp) = inl error ->
    payment_network_failure w d a c m error
      [LoadAccount (server (trader w)) (publicKey kp)]
| submit_failure kp acct tx :
    keypair (trader w) = Some kp ->
    loadAccount_reply net (horizon_log w) (server (trader w)) (publicKey kp) = inr acct ->
    payment_transaction (trader w) kp acct d a (default "XLM" c) (default "" m) = inr tx ->
    submitTransaction_reply net
      (horizon_log w ++ [LoadAccount (server (trader w)) (publicKey kp)])
      (server (trader w)) tx = inl error ->
    payment_network_failure w d a c m error
      [LoadAccount (server (trader w)) (publicKey kp);
       SubmitTransaction (server (trader w)) tx].

(** The trader is as before. *)
Definition same_trader (w w' : World U) : Prop := trader w' = trader w.

(** The trader is as before, up to its key pair. *)
Definition same_server (w w' : World U) : Prop :=
  server (trader w') = server (trader w)
  /\ networkPassphrase (trader w') = networkPassphrase (trader w).

(** Local storage is as before. *)
Definition same_storage (w w' : World U) : Prop := localStorage w' = localStorage w.

(** The requests a computation sends to Horizon when run in [w]. *)
Definition requests_of {A} (m : Js (World U) A) (w : World U) : list Request :=
  drop (length (horizon_log w)) (horizon_log (snd (m w))).

End Runs.

End Reading.

Section ReadingTheForm.

Import Stellar StellarClient StellarTradeExecutor.

Context {rt : JsRuntime} {sdk : StellarSdk}.

(** The secret key the form finds in local storage, when there is a non-empty
    one. *)
Definition stored_secret_key (w : World State) : option string :=
  match localStorage w !! "stellar_secret_key" with
  | Some secretKey => if truthy secretKey then Some secretKey else None
  | None => None
  end.

(** The steps the specification lists for a payment, read off what was sent
    between [w] and [w']: the account of the stored key pair is loaded, then a
    transaction signed with that key pair is submitted. *)
Definition payment_steps_performed (w w' : World State) : Prop :=
  exists kp tx rest,
    keypair (trader w) = Some kp
    /\ kp ∈ tx_signatures tx
    /\ horizon_log w'
       = horizon_log w
         ++ LoadAccount (server (trader w)) (publicKey kp)
            :: SubmitTransaction (server (trader w)) tx :: rest.

End ReadingTheForm.

Section ReadingThePage.

Import Stellar StellarClient StellarTradeExecutor.

Context {rt : JsRuntime} {sdk : StellarSdk}.

(** The page around the trader is as before: toasts, component state, local
    storage and clock. *)
Definition same_page {U} (w w' : World U) : Prop :=
  toasts w' = toasts w
  /\ component w' = component w
  /\ localStorage w' = localStorage w
  /\ clock w' = clock w.

(** The key pair is set once: a [connect] on a trader that has a key pair
    leaves the key pair it has. *)
Definition set_once {U} (secretKey : string) (w : World U) : Prop :=
  is_Some (keypair (trader w)) ->
  keypair (trader (snd (connect secretKey w))) = keypair (trader w).

(** Nothing was sent to Horizon. *)
Definition nothing_sent {U} (w w' : World U) : Prop := horizon_log w' = horizon_log w.

(** A trader that was ready is ready. *)
Definition still_ready {U} (w w' : World U) : Prop :=
  is_Some (keypair (trader w)) -> is_Some (keypair (trader w')).


(** The form fields a click on 'Confirm' reads and resets. *)
Definition fields (st : State) : string * string * string * bool :=
  (amount st, destination st, memo st, showPaymentDialog st).

End ReadingThePage.

Section ReadingTheList.

Context {rt : JsRuntime}.

(** A transaction record with another amount. *)
Definition with_amount (x : JsNumber) (t : TransactionList.Transaction)
    : TransactionList.Transaction :=
  {| TransactionList.id := TransactionList.id t;
     TransactionList.type := TransactionList.type t;
     TransactionList.name := TransactionList.name t;
     TransactionList.amount := x;
     TransactionList.wallet_type := TransactionList.wallet_type t;
     TransactionList.crypto_symbol := TransactionList.crypto_symbol t;
     TransactionList.target_currency := TransactionList.target_currency t;
     TransactionList.date := TransactionList.date t;
     TransactionList.status := TransactionList.status t |}.

End ReadingTheList.

(** ** A small instance to run the code on

    A runtime that knows unsigned decimal integers only, an sdk whose secrets
    start with [S] and whose accounts start with [G], and a network that holds
    one balance line per account.  The examples below run the code on it. *)

Module Demo.

Import Stellar StellarClient.

Definition digit_value (c : ascii) : option N :=
  let n := N_of_ascii c in
  if ((48 <=? n) && (n <=? 57))%N then Some (n - 48)%N else None.

Fixpoint digits_value (s : string) (acc : N) : option N :=
  match s with
  | EmptyString => Some acc
  | String c rest =>
      match digit_value c with
      | Some d => digits_value rest (10 * acc + d)%N
      | None => None
      end
  end.

(** [None] stands for NaN. *)
Definition parse_decimal (s : string) : option N :=
  match s with
  | EmptyString => None
  | _ => digits_value s 0
  end.

Definition upper_ascii (c : ascii) : ascii :=
  let n := N_of_ascii c in
  if ((97 <=? n) && (n <=? 122))%N then ascii_of_N (n - 32) else c.

Fixpoint upper (s : string) : string :=
  match s with
  | EmptyString => EmptyString
  | String c rest => String (upper_ascii c) (upper rest)
  end.

Definition show_2 (n : option N) : string :=
  match n with
  | Some n => pretty n +:+ ".00"
  | None => "NaN"
  end.

Definition runtime : JsRuntime :=
  {| JsNumber := option N;
     number_1 := Some 1%N;
     parseFloat := parse_decimal;
     Number := fun s => if truthy s then parse_decimal s else Some 0%N;
     isNaN := fun n => match n with Some _ => false | None => true end;
     Math_abs := fun n => n;
     toLocaleString_2 := show_2;
     toFixed_2 := show_2;
     Date_getTime := fun _ => None;
     toLocaleDateString := fun s => inr s;
     toUpperCase := upper |}.

Definition starts_with (c : ascii) (s : string) : bool :=
  match s with
  | String c' _ => Ascii.eqb c c'
  | EmptyString => false
  end.

(** A key pair is its secret; the account of [S...] is [G...]. *)
Definition sdk : StellarSdk :=
  {| Keypair := string;
     Keypair_fromSecret := fun s =>
       if starts_with "S" s then inr s else inl (new_Error "invalid encoded string");
     publicKey := fun kp => String "G" (TransactionList.slice_1 kp);
     Networks_TESTNET := "Test SDF Network ; September 2015";
     Networks_PUBLIC := "Public Global Stellar Network ; September 2015";
     Asset_rejects := fun _ _ => None;
     payment_rejects := fun opts =>
       if starts_with "G" (destination opts) then None
       else Some (new_Error "destination is invalid");
     Memo_rejects := fun _ => None;
     build_rejects := fun _ => None |}.

Definition not_found : JsError :=
  {| message := Some "Not Found";
     response := Some {| data := Some "Resource Missing" |} |}.

Definition bad_request : JsError :=
  {| message := Some "Request failed with status code 400";
     response := Some {| data := Some "tx_bad_seq" |} |}.

Definition account_of (accountId : string) : AccountResponse :=
  {| account_id := accountId; sequence := "42";
     balances := [{| asset_type := "native"; asset_code := None; balance := "100" |}] |}.

Definition load (accountId : string) : JsError + AccountResponse :=
  if starts_with "G" accountId then inr (account_of accountId) else inl not_found.

(** A network that knows the accounts [G...] and accepts every transaction. *)
Definition network : @Horizon sdk :=
  {| loadAccount_reply := fun _ _ accountId => load accountId;
     submitTransaction_reply := fun _ _ _ => inr {| Stellar.hash := "7f3a" |} |}.

(** A network that rejects every transaction. *)
Definition rejecting : @Horizon sdk :=
  {| loadAccount_reply := fun _ _ accountId => load accountId;
     submitTransaction_reply := fun _ _ _ => inl bad_request |}.

Definition form (amount destination : string) : @StellarTradeExecutor.State runtime :=
  {| StellarTradeExecutor.amount := amount;
     StellarTradeExecutor.fromCurrency := "XLM";
     StellarTradeExecutor.toCurrency := "XLM";
     StellarTradeExecutor.destination := destination;
     StellarTradeExecutor.memo := "rent";
     StellarTradeExecutor.showPaymentDialog := true;
     StellarTradeExecutor.isExecuting := false;
     StellarTradeExecutor.stellarStatus := StellarTradeExecutor.connected;
     StellarTradeExecutor.balance := None;
     StellarTradeExecutor.isLoading := false;
     StellarTradeExecutor.lastTrade := None |}.

(** The page of a fresh session, before [connect]. *)
Definition fresh (amount destination : string)
    : @World sdk (@StellarTradeExecutor.State runtime) :=
  {| trader := @stellarTrader sdk;
     horizon_log := [];
     console := [];
     clock := 1700000000000;
     localStorage := {[ "stellar_secret_key" := "SALICE" ]};
     toasts := [];
     component := form amount destination |}.

(** The page after [connect("SALICE")] succeeded. *)
Definition page (amount destination : string)
    : @World sdk (@StellarTradeExecutor.State runtime) :=
  @set_keypair sdk _ "SALICE" (fresh amount destination).

(** The same page with nothing in local storage, and with a stored secret
    that is no key. *)
Definition keyless (amount destination : string)
    : @World sdk (@StellarTradeExecutor.State runtime) :=
  snd (@StellarTradeExecutor.storage_changed runtime sdk ∅ (page amount destination)).

Definition mistyped (amount destination : string)
    : @World sdk (@StellarTradeExecutor.State runtime) :=
  snd (@StellarTradeExecutor.storage_changed runtime sdk
         {[ "stellar_secret_key" := "oops" ]} (fresh amount destination)).

(** [x <= 0] on the numbers of [runtime]; NaN compares false. *)
Definition le_0 (n : @JsNumber runtime) : bool :=
  match n : option N with
  | Some n => (n =? 0)%N
  | None => false
  end.

(** A runtime whose numbers are integers with a sign, for the list. *)
Definition parse_signed (s : string) : option Z :=
  match s with
  | String "-" rest => (fun n => (- Z.of_N n)%Z) <$> parse_decimal rest
  | _ => Z.of_N <$> parse_decimal s
  end.

Definition show_signed_2 (n : option Z) : string :=
  match n with
  | Some n => pretty n +:+ ".00"
  | None => "NaN"
  end.

Definition signed : JsRuntime :=
  {| JsNumber := option Z;
     number_1 := Some 1%Z;
     parseFloat := parse_signed;
     Number := fun s => if truthy s then parse_signed s else Some 0%Z;
     isNaN := fun n => match n with Some _ => false | None => true end;
     Math_abs := fun n => Z.abs <$> n;
     toLocaleString_2 := show_signed_2;
     toFixed_2 := show_signed_2;
     Date_getTime := fun _ => None;
     toLocaleDateString := fun s => inr s;
     toUpperCase := upper |}.

(** A received transfer, as the backend returns it. *)
Definition salary : @TransactionList.Transaction signed :=
  {| TransactionList.id := (Some 7%Z : @JsNumber signed);
     TransactionList.type := TransactionList.received;
     TransactionList.name := "Salary";
     TransactionList.amount := (Some 1200%Z : @JsNumber signed);
     TransactionList.wallet_type := Some "inr";
     TransactionList.crypto_symbol := None;
     TransactionList.target_currency := None;
     TransactionList.date := "2025-01-31";
     TransactionList.status := TransactionList.completed |}.

(** The salary's amount with the other sign. *)
Definition negative : @JsNumber signed := Some (-1200)%Z.

(** What a payment of 25 XLM to [GBOB] with memo 'rent' looks like there. *)
Definition horizon : Server := {| serverURL := "https://horizon-testnet.stellar.org" |}.

Definition payment : @Transaction sdk :=
  {| tx_body :=
       {| tb_sourceAccount := account_of "GALICE";
          tb_options :=
            {| fee := "100";
               opt_networkPassphrase := "Test SDF Network ; September 2015" |};
          tb_operations :=
            [Operation_payment
               {| destination := "GBOB"; asset := Asset_native;
                  Stellar.amount := "25"; source := "GALICE" |}];
          tb_memo := Some (Memo_text "rent");
          tb_timeout := Some 30%Z |};
     tx_signatures := [("SALICE" : @Keypair sdk)] |}.

Definition receipt : SubmitTransactionResponse := {| Stellar.hash := "7f3a" |}.

Definition trade : @TradeResult runtime :=
  {| id := "7f3a"; fromAsset := "XLM"; toAsset := "XLM";
     StellarClient.amount := (Some 25%N : @JsNumber runtime);
     rate := (Some 1%N : @JsNumber runtime);
     timestamp := 1700000000000; hash := "7f3a"; status := completed |}.

End Demo.

(** ** Properties *)

Ltac js_unfold :=
  unfold StellarClient.executePayment, StellarClient.getAccountBalance,
    StellarClient.connect, StellarClient.isReady,
    StellarClient.server_loadAccount, StellarClient.server_submitTransaction,
    StellarClient.console_error, StellarClient.Date_now,
    try_catch, try_finally, bind, ret, throw, get, modify, call, check in *.

(** Case analysis on an innermost scrutinee of the goal. *)
Ltac js_case :=
  match goal with
  | |- context [match ?x with _ => _ end] =>
      lazymatch x with
      | context [match _ with _ => _ end] => fail
      | _ => let E := fresh "E" in
             destruct x eqn:E; try rewrite E in *; simpl in *; simplify_eq
      end
  end.

(** *** Relations every step keeps *)

Section Preserves.

Context {S : Type} (R : S -> S -> Prop) `{!Reflexive R} `{!Transitive R}.

Lemma preserves_ret {A} (a : A) : preserves R (ret a).
Proof. intros w. reflexivity. Qed.

Lemma preserves_throw {A} e : preserves R (throw (A:=A) e).
Proof. intros w. reflexivity. Qed.

Lemma preserves_get : preserves R get.
Proof. intros w. reflexivity. Qed.

Lemma preserves_call {A} (r : JsError + A) : preserves R (call r).
Proof. destruct r; intros w; reflexivity. Qed.

Lemma preserves_check r : preserves R (check r).
Proof. destruct r; intros w; reflexivity. Qed.

Lemma preserves_modify f : (forall w, R w (f w)) -> preserves R (modify f).
Proof. intros H w. apply H. Qed.

Lemma preserves_bind {A B} (m : Js S A) (k : A -> Js S B) :
  preserves R m -> (forall a, preserves R (k a)) -> preserves R (bind m k).
Proof.
  intros Hm Hk w. unfold bind. specialize (Hm w).
  destruct (m w) as [[a|e] w1]; simpl in *; [|assumption].
  etransitivity; [eassumption|apply Hk].
Qed.

Lemma preserves_try_catch {A} (body : Js S A) handler :
  preserves R body -> (forall e, preserves R (handler e)) ->
  preserves R (try_catch body handler).
Proof.
  intros Hm Hk w. unfold try_catch. specialize (Hm w).
  destruct (body w) as [[a|e] w1]; simpl in *; [assumption|].
  etransitivity; [eassumption|apply Hk].
Qed.

Lemma preserves_try_finally {A} (body : Js S A) cleanup :
  preserves R body -> preserves R cleanup -> preserves R (try_finally body cleanup).
Proof.
  intros Hm Hk w. unfold try_finally. specialize (Hm w).
  destruct (body w) as [o w1]. specialize (Hk w1).
  destruct (cleanup w1) as [[u|e] w2]; simpl in *; etransitivity; eassumption.
Qed.

End Preserves.

(** Break a computation into its steps, down to the calls that change the
    state. *)
Ltac frame_step :=
  lazymatch goal with
  | |- Reflexive _ => exact _
  | |- Transitive _ => exact _
  | |- preserves _ (bind _ _) => apply preserves_bind
  | |- preserves _ (try_catch _ _) => apply preserves_try_catch
  | |- preserves _ (try_finally _ _) => apply preserves_try_finally
  | |- preserves _ (ret _) => apply preserves_ret
  | |- preserves _ (throw _) => apply preserves_throw
  | |- preserves _ get => apply preserves_get
  | |- preserves _ (call _) => apply preserves_call
  | |- preserves _ (check _) => apply preserves_check
  | |- preserves _ (match ?x with _ => _ end) => destruct x
  | |- forall _, _ => intros ?
  end.

Ltac frame_steps := repeat frame_step.

Section ClientRuns.

Import Stellar StellarClient.

Context {rt : JsRuntime} {sdk : StellarSdk} (net : Horizon) {U : Type}.

Implicit Types (w : World U) (kp : Keypair) (e : JsError).

Lemma executePayment_not_connected w d a c m :
  keypair (trader w) = None ->
  executePayment net d a c m w =
    (Thrown (new_Error "Not connected. Call connect() with a valid secret key first."), w).
Proof. intros Hk. js_unfold. now rewrite Hk. Qed.

Lemma executePayment_load_fails w d a c m kp e :
  keypair (trader w) = Some kp ->
  loadAccount_reply net (horizon_log w) (server (trader w)) (publicKey kp) = inl e ->
  executePayment net d a c m w =
    (Thrown (payment_failed e),
     payment_failure_logged e (sent (LoadAccount (server (trader w)) (publicKey kp)) w)).
Proof.
  intros Hk Hl. js_unfold. rewrite Hk. simpl. rewrite Hl. simpl.
  unfold payment_failure_logged, payment_failed.
  destruct (response_data e); reflexivity.
Qed.

Lemma executePayment_build_fails w d a c m kp acct e :
  keypair (trader w) = Some kp ->
  loadAccount_reply net (horizon_log w) (server (trader w)) (publicKey kp) = inr acct ->
  payment_transaction (trader w) kp acct d a (default "XLM" c) (default "" m) = inl e ->
  executePayment net d a c m w =
    (Thrown (payment_failed e),
     payment_failure_logged e (sent (LoadAccount (server (trader w)) (publicKey kp)) w)).
Proof.
  intros Hk Hl Hb. js_unfold. rewrite Hk. simpl. rewrite Hl. simpl.
  unfold payment_transaction, payment_failure_logged, payment_failed in *.
  repeat js_case; reflexivity.
Qed.

Lemma executePayment_submit_fails w d a c m kp acct tx e :
  keypair (trader w) = Some kp ->
  loadAccount_reply net (horizon_log w) (server (trader w)) (publicKey kp) = inr acct ->
  payment_transaction (trader w) kp acct d a (default "XLM" c) (default "" m) = inr tx ->
  submitTransaction_reply net
    (horizon_log w ++ [LoadAccount (server (trader w)) (publicKey kp)])
    (server (trader w)) tx = inl e ->
  executePayment net d a c m w =
    (Thrown (payment_failed e),
     payment_failure_logged e
       (sent (SubmitTransaction (server (trader w)) tx)
          (sent (LoadAccount (server (trader w)) (publicKey kp)) w))).
Proof.
  intros Hk Hl Hb Hs. js_unfold. rewrite Hk. simpl. rewrite Hl. simpl.
  unfold payment_transaction, payment_failure_logged, payment_failed in *.
  repeat js_case; try rewrite Hs in *; simplify_eq; reflexivity.
Qed.

Lemma executePayment_succeeds w d a c m kp acct tx result :
  keypair (trader w) = Some kp ->
  loadAccount_reply net (horizon_log w) (server (trader w)) (publicKey kp) = inr acct ->
  payment_transaction (trader w) kp acct d a (default "XLM" c) (default "" m) = inr tx ->
  submitTransaction_reply net
    (horizon_log w ++ [LoadAccount (server (trader w)) (publicKey kp)])
    (server (trader w)) tx = inr result ->
  executePayment net d a c m w =
    (Returned {| id := Stellar.hash result;
                 fromAsset := default "XLM" c;
                 toAsset := "XLM";
                 amount := parseFloat a;
                 rate := number_1;
                 timestamp := clock w;
                 hash := Stellar.hash result;
                 status := completed |},
     sent (SubmitTransaction (server (trader w)) tx)
       (sent (LoadAccount (server (trader w)) (publicKey kp)) w)).
Proof.
  intros Hk Hl Hb Hs. js_unfold. rewrite Hk. simpl. rewrite Hl. simpl.
  unfold payment_transaction in *.
  repeat js_case; try rewrite Hs in *; simplify_eq; reflexivity.
Qed.

Lemma getAccountBalance_fails w accountId e :
  loadAccount_reply net (horizon_log w) (server (trader w)) accountId = inl e ->
  getAccountBalance net accountId w =
    (Thrown (balance_failed e),
     logged [log_string "Failed to get account balance:"; log_error e]
       (sent (LoadAccount (server (trader w)) accountId) w)).
Proof. intros Hl. js_unfold. simpl. rewrite Hl. reflexivity. Qed.

Lemma getAccountBalance_succeeds w accountId account :
  loadAccount_reply net (horizon_log w) (server (trader w)) accountId = inr account ->
  getAccountBalance net accountId w =
    (Returned (balances_of account),
     sent (LoadAccount (server (trader w)) accountId) w).
Proof. intros Hl. js_unfold. simpl. rewrite Hl. reflexivity. Qed.

Lemma connect_valid w secretKey kp :
  Keypair_fromSecret secretKey = inr kp ->
  connect secretKey w = (Returned true, set_keypair kp w).
Proof. intros Hs. js_unfold. now rewrite Hs. Qed.

Lemma connect_invalid w secretKey e :
  Keypair_fromSecret secretKey = inl e ->
  connect secretKey w =
    (Returned false,
     logged [log_string "Failed to connect with secret key:"; log_error e] w).
Proof. intros Hs. js_unfold. now rewrite Hs. Qed.

(** What [payment_failure_logged] leaves alone. *)
Lemma payment_failure_logged_frame e w :
  trader (payment_failure_logged e w) = trader w
  /\ horizon_log (payment_failure_logged e w) = horizon_log w
  /\ localStorage (payment_failure_logged e w) = localStorage w
  /\ toasts (payment_failure_logged e w) = toasts w
  /\ component (payment_failure_logged e w) = component w
  /\ clock (payment_failure_logged e w) = clock w.
Proof. unfold payment_failure_logged. destruct (response_data e); repeat split. Qed.

Lemma executePayment_runs w d a c m :
  payment_run net w d a c m (executePayment net d a c m w).
Proof.
  destruct (keypair (trader w)) as [kp|] eqn:Hk.
  - destruct (loadAccount_reply net (horizon_log w) (server (trader w)) (publicKey kp))
      as [e|acct] eqn:Hl.
    + erewrite executePayment_load_fails by eassumption. eapply run_load_failed; eassumption.
    + destruct (payment_transaction (trader w) kp acct d a (default "XLM" c) (default "" m))
        as [e|tx] eqn:Hb.
      * erewrite executePayment_build_fails by eassumption. eapply run_build_failed; eassumption.
      * destruct (submitTransaction_reply net
                    (horizon_log w ++ [LoadAccount (server (trader w)) (publicKey kp)])
                    (server (trader w)) tx) as [e|result] eqn:Hs.
        -- erewrite executePayment_submit_fails by eassumption.
           eapply run_submit_failed; eassumption.
        -- erewrite executePayment_succeeds by eassumption.
           eapply run_succeeded; eassumption.
  - rewrite executePayment_not_connected by assumption. apply run_not_connected; assumption.
Qed.

Lemma requests_of_app {A} (m : Js (World U) A) w new :
  horizon_log (snd (m w)) = horizon_log w ++ new -> requests_of m w = new.
Proof. intros H. unfold requests_of. rewrite H. apply drop_app_length. Qed.

(** The requests of a run of [executePayment], by cases. *)
Lemma executePayment_requests w d a c m :
  horizon_log (snd (executePayment net d a c m w))
    = horizon_log w ++ requests_of (executePayment net d a c m) w
  /\ match keypair (trader w) with
     | None => requests_of (executePayment net d a c m) w = []
     | Some kp =>
         requests_of (executePayment net d a c m) w
           = [LoadAccount (server (trader w)) (publicKey kp)]
         \/ exists acct tx,
              loadAccount_reply net (horizon_log w) (server (trader w)) (publicKey kp)
                = inr acct
              /\ payment_transaction (trader w) kp acct d a (default "XLM" c) (default "" m)
                  = inr tx
              /\ requests_of (executePayment net d a c m) w
                  = [LoadAccount (server (trader w)) (publicKey kp);
                     SubmitTransaction (server (trader w)) tx]
     end.
Proof.
  unfold requests_of.
  generalize (executePayment_runs w d a c m).
  generalize (executePayment net d a c m w). intros run Hrun.
  destruct Hrun as [Hk|kp e Hk Hl|kp acct e Hk Hl Hb
    |kp acct tx e Hk Hl Hb Hs|kp acct tx result Hk Hl Hb Hs]; rewrite Hk; simpl;
    rewrite ?(proj1 (proj2 (payment_failure_logged_frame e _))); simpl;
    rewrite <- ?app_assoc; simpl;
    rewrite ?drop_app_length, ?drop_all, ?app_nil_r; eauto 10.
Qed.

(** What a transaction built by [payment_transaction] holds. *)
Lemma payment_transaction_built this kp acct (d a c m : string) tx :
  payment_transaction this kp acct d a c m = inr tx ->
  tb_sourceAccount (tx_body tx) = acct
  /\ tx_signatures tx = [kp]
  /\ tb_timeout (tx_body tx) = Some 30%Z
  /\ tb_options (tx_body tx)
     = {| fee := "100"; opt_networkPassphrase := networkPassphrase this |}
  /\ tb_memo (tx_body tx) = (if truthy m then Some (Memo_text m) else None)
  /\ tb_operations (tx_body tx)
     = [Operation_payment
          {| destination := d;
             asset := if String.eqb c "XLM" then Asset_native
                      else Asset_credit c (publicKey kp);
             Stellar.amount := a;
             source := publicKey kp |}].
Proof.
  unfold payment_transaction. intros H.
  repeat case_match; simplify_eq; simpl; repeat split.
Qed.

Lemma requests_of_executePayment_timeout w d a c m r :
  r ∈ requests_of (executePayment net d a c m) w ->
  request_timeout r = if is_submit r then Some 30%Z else None.
Proof.
  destruct (executePayment_requests w d a c m) as [_ Hreq].
  destruct (keypair (trader w)) as [kp|].
  - destruct Hreq as [->|(acct & tx & _ & Hb & ->)].
    + intros ->%list_elem_of_singleton. reflexivity.
    + apply payment_transaction_built in Hb as (_ & _ & Ht & _).
      rewrite !elem_of_cons, elem_of_nil. intros [->|[->|[]]]; simpl; auto.
  - rewrite Hreq. intros []%elem_of_nil.
Qed.

Lemma requests_of_executePayment_submissions w d a c m :
  length (List.filter is_submit (requests_of (executePayment net d a c m) w)) <= 1.
Proof.
  destruct (executePayment_requests w d a c m) as [_ Hreq].
  destruct (keypair (trader w)) as [kp|].
  - destruct Hreq as [->|(acct & tx & _ & _ & ->)]; simpl; lia.
  - rewrite Hreq. simpl. lia.
Qed.

(** *** The connection guard *)

(** C10: [connect] never throws.  On a valid secret key it stores the derived
    key pair and returns [true], after which [isReady()] is [true]; on an
    invalid one it returns [false] and leaves the trader, and so the stored
    key pair, as it was. *)
Theorem connect_never_throws w secretKey :
  match Keypair_fromSecret secretKey with
  | inr kp =>
      fst (connect secretKey w) = Returned true
      /\ keypair (trader (snd (connect secretKey w))) = Some kp
      /\ fst (isReady (snd (connect secretKey w))) = Returned true
  | inl _ =>
      fst (connect secretKey w) = Returned false
      /\ trader (snd (connect secretKey w)) = trader w
  end.
Proof.
  destruct (Keypair_fromSecret secretKey) as [e|kp] eqn:Hs.
  - rewrite (connect_invalid w secretKey e Hs). split; reflexivity.
  - rewrite (connect_valid w secretKey kp Hs). repeat split.
Qed.

(** C9: [executePayment] throws the 'Not connected' error exactly when the
    key pair is null, which is exactly when [isReady()] is [false]; when
    [isReady()] is [true] the first thing the call does is to ask Horizon for
    the account of the stored key pair. *)
Theorem not_connected_iff_not_ready w d a c m :
  (fst (executePayment net d a c m w)
     = Thrown (new_Error "Not connected. Call connect() with a valid secret key first.")
   <-> keypair (trader w) = None)
  /\ (keypair (trader w) = None <-> fst (isReady w) = Returned false)
  /\ (fst (isReady w) = Returned true ->
      exists kp rest,
        keypair (trader w) = Some kp
        /\ requests_of (executePayment net d a c m) w
            = LoadAccount (server (trader w)) (publicKey kp) :: rest).
Proof.
  split; [|split].
  - split.
    + generalize (executePayment_runs w d a c m).
      generalize (executePayment net d a c m w). intros run Hrun.
      destruct Hrun; simpl; intros Hthrown; try assumption; discriminate Hthrown.
    + intros Hk. now rewrite executePayment_not_connected.
  - unfold isReady, bind, get, ret. simpl.
    destruct (keypair (trader w)); split; intros; congruence.
  - unfold isReady, bind, get, ret. simpl. intros Hready.
    destruct (executePayment_requests w d a c m) as [_ Hreq].
    destruct (keypair (trader w)) as [kp|]; [|discriminate Hready].
    exists kp. destruct Hreq as [->|(acct & tx & _ & _ & ->)]; eauto.
Qed.

(** *** The trade result *)

(** C8: a [TradeResult] returned by [executePayment] has status 'completed'
    (never 'pending' or 'failed'), [id] and [hash] both equal to the hash in
    Horizon's answer to the submission, rate 1, [toAsset] 'XLM' and the parsed
    amount; and no answer of Horizon to that submission was an error: a failed
    submission throws instead of returning a result. *)
Theorem trade_result_of_successful_payment w d a c m r w' :
  executePayment net d a c m w = (Returned r, w') ->
  status r = completed
  /\ status r <> pending
  /\ status r <> failed
  /\ id r = hash r
  /\ rate r = number_1
  /\ toAsset r = "XLM"
  /\ amount r = parseFloat a
  /\ exists kp acct tx result,
       keypair (trader w) = Some kp
       /\ payment_transaction (trader w) kp acct d a (default "XLM" c) (default "" m)
           = inr tx
       /\ submitTransaction_reply net
            (horizon_log w ++ [LoadAccount (server (trader w)) (publicKey kp)])
            (server (trader w)) tx = inr result
       /\ hash r = Stellar.hash result
       /\ forall e,
            submitTransaction_reply net
              (horizon_log w ++ [LoadAccount (server (trader w)) (publicKey kp)])
              (server (trader w)) tx <> inl e.
Proof.
  intros Hrun. generalize (executePayment_runs w d a c m). rewrite Hrun.
  inversion 1; subst; simpl.
  repeat (split; [first [reflexivity | discriminate]|]).
  exists kp, acct, tx, result. repeat (split; [assumption || reflexivity|]).
  intros e He. congruence.
Qed.

(** *** Failures of the network *)

(** The console after the [catch] block of [executePayment] logged [e]. *)
Lemma payment_failure_logged_console e w :
  exists details,
    console (payment_failure_logged e w)
      = console w ++ [log_string "Transaction failed:"; log_error e] :: details
    /\ (details = []
        \/ exists text, response_data e = Some text
                        /\ details = [[log_string "Error details:"; log_string text]]).
Proof.
  unfold payment_failure_logged. destruct (response_data e) as [text|]; simpl.
  - eexists. rewrite <- app_assoc. split; [reflexivity|]. right. eauto.
  - eexists. split; [reflexivity|]. now left.
Qed.

(** C2: when a network call of [executePayment] (the account load or the
    submission) fails with an error, the call logs the error and throws
    'Payment failed: ' followed by the error's message, or by 'Unknown error'
    when it has none, and sends nothing after the failed request; when the
    account load of [getAccountBalance] fails, the call logs the error, throws
    'Failed to get account balance: ' followed by the message or 'Unknown
    error', and has sent that one request only. *)
Theorem network_failures_are_wrapped :
  (forall w d a c m e requests,
     payment_network_failure net w d a c m e requests ->
     fst (executePayment net d a c m w)
       = Thrown (new_Error ("Payment failed: " +:+ or_else (message e) "Unknown error"))
     /\ (exists details,
          console (snd (executePayment net d a c m w))
            = console w ++ [log_string "Transaction failed:"; log_error e] :: details)
     /\ requests_of (executePayment net d a c m) w = requests)
  /\ (forall w accountId e,
       loadAccount_reply net (horizon_log w) (server (trader w)) accountId = inl e ->
       fst (getAccountBalance net accountId w)
         = Thrown (new_Error ("Failed to get account balance: "
                              +:+ or_else (message e) "Unknown error"))
       /\ console (snd (getAccountBalance net accountId w))
          = console w ++ [[log_string "Failed to get account balance:"; log_error e]]
       /\ requests_of (getAccountBalance net accountId) w
          = [LoadAccount (server (trader w)) accountId]).
Proof.
  split.
  - intros w d a c m e requests Hfail.
    destruct Hfail as [kp Hk Hl|kp acct tx Hk Hl Hb Hs]; unfold requests_of.
    + rewrite (executePayment_load_fails w d a c m kp e Hk Hl). simpl.
      split; [reflexivity|]. split.
      * destruct (payment_failure_logged_console e
                    (sent (LoadAccount (server (trader w)) (publicKey kp)) w))
          as (details & -> & _). eauto.
      * rewrite (proj1 (proj2 (payment_failure_logged_frame e _))). simpl.
        apply drop_app_length.
    + rewrite (executePayment_submit_fails w d a c m kp acct tx e Hk Hl Hb Hs). simpl.
      split; [reflexivity|]. split.
      * destruct (payment_failure_logged_console e
                    (sent (SubmitTransaction (server (trader w)) tx)
                       (sent (LoadAccount (server (trader w)) (publicKey kp)) w)))
          as (details & -> & _). eauto.
      * rewrite (proj1 (proj2 (payment_failure_logged_frame e _))). simpl.
        rewrite <- app_assoc. apply drop_app_length.
  - intros w accountId e Hl. unfold requests_of.
    rewrite (getAccountBalance_fails w accountId e Hl). simpl.
    repeat split. apply drop_app_length.
Qed.

(** *** What the trader's methods leave alone *)

Local Abbreviation kept := (same_trader (U:=U)).
Local Abbreviation kept_but_key := (same_server (U:=U)).

#[global] Instance same_trader_refl : Reflexive kept.
Proof. intros w. reflexivity. Qed.

#[global] Instance same_trader_trans : Transitive kept.
Proof. intros w1 w2 w3 H1 H2. unfold same_trader in *. congruence. Qed.

#[global] Instance same_server_refl : Reflexive kept_but_key.
Proof. intros w. split; reflexivity. Qed.

#[global] Instance same_server_trans : Transitive kept_but_key.
Proof. intros w1 w2 w3 [] []. unfold same_server in *. split; congruence. Qed.

Lemma console_error_same_trader line : preserves kept (console_error line).
Proof. intros w. reflexivity. Qed.

Lemma server_loadAccount_same_trader srv accountId :
  preserves kept (server_loadAccount net srv accountId).
Proof.
  unfold server_loadAccount. frame_steps. apply preserves_modify. reflexivity.
Qed.

Lemma server_submitTransaction_same_trader srv tx :
  preserves kept (server_submitTransaction net srv tx).
Proof.
  unfold server_submitTransaction. frame_steps. apply preserves_modify. reflexivity.
Qed.

Lemma isReady_same_trader : preserves kept isReady.
Proof. unfold isReady. frame_steps. Qed.

Lemma executePayment_same_trader d a c m :
  preserves kept (executePayment net d a c m).
Proof.
  unfold executePayment, Date_now. frame_steps;
    auto using console_error_same_trader, server_loadAccount_same_trader,
      server_submitTransaction_same_trader.
Qed.

Lemma getAccountBalance_same_trader accountId :
  preserves kept (getAccountBalance net accountId).
Proof.
  unfold getAccountBalance. frame_steps;
    auto using console_error_same_trader, server_loadAccount_same_trader.
Qed.

#[global] Instance same_storage_refl : Reflexive (same_storage (U:=U)).
Proof. intros w. reflexivity. Qed.

#[global] Instance same_storage_trans : Transitive (same_storage (U:=U)).
Proof. intros w1 w2 w3 H1 H2. unfold same_storage in *. congruence. Qed.

Lemma executePayment_same_storage d a c m :
  preserves (same_storage (U:=U)) (executePayment net d a c m).
Proof.
  unfold executePayment, Date_now, server_loadAccount, server_submitTransaction,
    console_error.
  frame_steps; apply preserves_modify; reflexivity.
Qed.

Lemma getAccountBalance_same_storage accountId :
  preserves (same_storage (U:=U)) (getAccountBalance net accountId).
Proof.
  unfold getAccountBalance, server_loadAccount, console_error.
  frame_steps; apply preserves_modify; reflexivity.
Qed.

Lemma connect_same_server secretKey : preserves kept_but_key (connect secretKey).
Proof.
  unfold connect, console_error. frame_steps; apply preserves_modify; intros w; split; reflexivity.
Qed.

End ClientRuns.

Section FormRuns.

Import Stellar StellarClient StellarTradeExecutor.

Context {rt : JsRuntime} {sdk : StellarSdk} (net : Horizon).

Implicit Types (w : World State) (kp : Keypair) (e : JsError).

Local Abbreviation kept := (same_trader (U:=State)).

Lemma update_same_trader f : preserves kept (update f).
Proof. apply preserves_modify. reflexivity. Qed.

Lemma toast_same_trader kind msg : preserves kept (toast kind msg).
Proof. apply preserves_modify. reflexivity. Qed.

Lemma handleExecutePayment_same_trader : preserves kept (handleExecutePayment net).
Proof.
  unfold handleExecutePayment, localStorage_getItem, setIsExecuting, setLastTrade,
    setBalance, setAmount, setDestination, setMemo, setShowPaymentDialog.
  frame_steps;
    auto using update_same_trader, toast_same_trader, console_error_same_trader,
      executePayment_same_trader, getAccountBalance_same_trader.
Qed.

Lemma handleExecutePayment_same_storage :
  preserves (same_storage (U:=State)) (handleExecutePayment net).
Proof.
  unfold handleExecutePayment, localStorage_getItem, setIsExecuting, setLastTrade,
    setBalance, setAmount, setDestination, setMemo, setShowPaymentDialog, update, toast,
    console_error.
  frame_steps;
    first [ apply executePayment_same_storage
          | apply getAccountBalance_same_storage
          | apply preserves_modify; reflexivity ].
Qed.

Lemma connectToStellar_same_server :
  preserves (same_server (U:=State)) (connectToStellar net).
Proof.
  assert (Hsub : forall A (m : Js (World State) A),
             preserves kept m -> preserves (same_server (U:=State)) m).
  { intros A m Hm w. specialize (Hm w). unfold same_trader, same_server in *.
    now rewrite Hm. }
  unfold connectToStellar, localStorage_getItem, setIsLoading, setStellarStatus,
    setBalance.
  frame_steps;
    first [ apply connect_same_server
          | apply Hsub;
            first [ apply update_same_trader | apply toast_same_trader
                  | apply console_error_same_trader
                  | apply getAccountBalance_same_trader ] ].
Qed.

Lemma handleOpenPaymentDialog_same_trader : preserves kept handleOpenPaymentDialog.
Proof.
  unfold handleOpenPaymentDialog, setShowPaymentDialog.
  frame_steps; auto using update_same_trader, toast_same_trader, isReady_same_trader.
Qed.

Local Arguments executePayment : simpl never.
Local Arguments getAccountBalance : simpl never.

Ltac form_unfold :=
  unfold handleExecutePayment, localStorage_getItem, setIsExecuting, setLastTrade,
    setBalance, setAmount, setDestination, setMemo, setShowPaymentDialog, toast, update,
    console_error, try_catch, try_finally, bind, ret, throw, get, modify.

(** The form is incomplete: nothing is sent, a toast says so. *)
Lemma handleExecutePayment_rejects_form w :
  missing_fields (component w) = true ->
  requests_of (handleExecutePayment net) w = []
  /\ toasts (snd (handleExecutePayment net w))
     = toasts w ++ [{| toast_kind := toast_error;
                       toast_message := "Please fill in all required fields" |}]
  /\ component (snd (handleExecutePayment net w)) = component w.
Proof.
  intros Hm. unfold requests_of. form_unfold. rewrite Hm. simpl.
  rewrite drop_all. repeat split.
Qed.

(** The payment goes through and no secret key is stored: two requests. *)
Lemma handleExecutePayment_without_stored_key w kp acct tx result :
  missing_fields (component w) = false ->
  keypair (trader w) = Some kp ->
  loadAccount_reply net (horizon_log w) (server (trader w)) (publicKey kp) = inr acct ->
  payment_transaction (trader w) kp acct (destination (component w))
    (amount (component w)) (fromCurrency (component w)) (memo (component w)) = inr tx ->
  submitTransaction_reply net
    (horizon_log w ++ [LoadAccount (server (trader w)) (publicKey kp)])
    (server (trader w)) tx = inr result ->
  stored_secret_key w = None ->
  requests_of (handleExecutePayment net) w
    = [LoadAccount (server (trader w)) (publicKey kp);
       SubmitTransaction (server (trader w)) tx]
  /\ lastTrade (component (snd (handleExecutePayment net w)))
     = Some {| id := Stellar.hash result;
               fromAsset := fromCurrency (component w);
               toAsset := "XLM";
               StellarClient.amount := parseFloat (amount (component w));
               rate := number_1;
               timestamp := clock w;
               hash := Stellar.hash result;
               status := completed |}.
Proof.
  intros Hm Hk Hl Hb Hs Hsk.
  unfold requests_of. form_unfold. rewrite Hm. simpl.
  erewrite executePayment_succeeds by (simpl; eassumption). simpl.
  unfold stored_secret_key in Hsk.
  destruct (localStorage w !! "stellar_secret_key") as [sk|]; simpl.
  - destruct (truthy sk); [discriminate Hsk|]. simpl.
    rewrite <- app_assoc. simpl. rewrite drop_app_length. split; reflexivity.
  - rewrite <- app_assoc. simpl. rewrite drop_app_length. split; reflexivity.
Qed.

(** The payment goes through and a secret key is stored: the third request
    loads the account named by the stored secret key, and its balances are
    shown when it succeeds. *)
Lemma handleExecutePayment_with_stored_key w kp acct tx result secretKey :
  missing_fields (component w) = false ->
  keypair (trader w) = Some kp ->
  loadAccount_reply net (horizon_log w) (server (trader w)) (publicKey kp) = inr acct ->
  payment_transaction (trader w) kp acct (destination (component w))
    (amount (component w)) (fromCurrency (component w)) (memo (component w)) = inr tx ->
  submitTransaction_reply net
    (horizon_log w ++ [LoadAccount (server (trader w)) (publicKey kp)])
    (server (trader w)) tx = inr result ->
  stored_secret_key w = Some secretKey ->
  requests_of (handleExecutePayment net) w
    = [LoadAccount (server (trader w)) (publicKey kp);
       SubmitTransaction (server (trader w)) tx;
       LoadAccount (server (trader w)) secretKey]
  /\ lastTrade (component (snd (handleExecutePayment net w)))
     = Some {| id := Stellar.hash result;
               fromAsset := fromCurrency (component w);
               toAsset := "XLM";
               StellarClient.amount := parseFloat (amount (component w));
               rate := number_1;
               timestamp := clock w;
               hash := Stellar.hash result;
               status := completed |}
  /\ match loadAccount_reply net
            (horizon_log w ++ [LoadAccount (server (trader w)) (publicKey kp);
                               SubmitTransaction (server (trader w)) tx])
            (server (trader w)) secretKey with
     | inr account =>
         balance (component (snd (handleExecutePayment net w)))
           = Some (balances_of account)
     | inl e =>
         balance (component (snd (handleExecutePayment net w))) = balance (component w)
         /\ toasts (snd (handleExecutePayment net w))
            = toasts w
              ++ [{| toast_kind := toast_success;
                     toast_message := "Payment executed successfully!" |};
                  {| toast_kind := toast_error;
                     toast_message :=
                       "Payment failed: Failed to get account balance: "
                       +:+ or_else (message e) "Unknown error" |}]
     end.
Proof.
  intros Hm Hk Hl Hb Hs Hsk.
  unfold requests_of. form_unfold. rewrite Hm. simpl.
  erewrite executePayment_succeeds by (simpl; eassumption). simpl.
  unfold stored_secret_key in Hsk.
  destruct (localStorage w !! "stellar_secret_key") as [sk|]; [|discriminate Hsk].
  destruct (truthy sk); [|discriminate Hsk]. injection Hsk as ->.
  rewrite <- app_assoc. simpl.
  destruct (loadAccount_reply net
              (horizon_log w ++ [LoadAccount (server (trader w)) (publicKey kp);
                                 SubmitTransaction (server (trader w)) tx])
              (server (trader w)) secretKey) as [e|account] eqn:Hl2.
  - erewrite getAccountBalance_fails by (simpl; eassumption). simpl.
    rewrite <- app_assoc. simpl. rewrite drop_app_length.
    repeat split. now rewrite <- app_assoc.
  - erewrite getAccountBalance_succeeds by (simpl; eassumption). simpl.
    rewrite <- app_assoc. simpl. rewrite drop_app_length. repeat split.
Qed.

(** The payment fails: what [executePayment] sent is all that is sent. *)
Lemma handleExecutePayment_payment_fails w e w1 :
  missing_fields (component w) = false ->
  payment_run net w (destination (component w)) (amount (component w))
    (Some (fromCurrency (component w))) (Some (memo (component w))) (Thrown e, w1) ->
  horizon_log (snd (handleExecutePayment net w)) = horizon_log w1
  /\ lastTrade (component (snd (handleExecutePayment net w))) = lastTrade (component w)
  /\ exists before,
       toasts (snd (handleExecutePayment net w))
       = before ++ [{| toast_kind := toast_error;
                       toast_message := "Payment failed: " +:+ interpolate (message e) |}].
Proof.
  intros Hm Hrun.
  assert (Hf := payment_failure_logged_frame (U:=State)).
  inversion Hrun as [Hk|kp e0 Hk Hl|kp acct e0 Hk Hl Hb
    |kp acct tx e0 Hk Hl Hb Hs|]; subst; form_unfold; rewrite Hm; simpl.
  - erewrite executePayment_not_connected by (simpl; eassumption). simpl.
    repeat split. eexists. reflexivity.
  - erewrite executePayment_load_fails by (simpl; eassumption). simpl.
    rewrite !(proj1 (proj2 (Hf e0 _))), !(proj1 (proj2 (proj2 (proj2 (Hf e0 _))))),
      !(proj1 (proj2 (proj2 (proj2 (proj2 (Hf e0 _)))))). simpl.
    repeat split. eexists. reflexivity.
  - erewrite executePayment_build_fails by (simpl; eassumption). simpl.
    rewrite !(proj1 (proj2 (Hf e0 _))), !(proj1 (proj2 (proj2 (proj2 (Hf e0 _))))),
      !(proj1 (proj2 (proj2 (proj2 (proj2 (Hf e0 _)))))). simpl.
    repeat split. eexists. reflexivity.
  - erewrite executePayment_submit_fails by (simpl; eassumption). simpl.
    rewrite !(proj1 (proj2 (Hf e0 _))), !(proj1 (proj2 (proj2 (proj2 (Hf e0 _))))),
      !(proj1 (proj2 (proj2 (proj2 (proj2 (Hf e0 _)))))). simpl.
    repeat split. eexists. reflexivity.
Qed.

(** What the form sends is what [executePayment] sends, and then at most one
    more account load. *)
Lemma handleExecutePayment_requests w :
  exists tail,
    requests_of (handleExecutePayment net) w
      = (if missing_fields (component w) then []
         else requests_of
                (executePayment net (destination (component w)) (amount (component w))
                   (Some (fromCurrency (component w))) (Some (memo (component w)))) w
              ++ tail)
    /\ (tail = [] \/ exists accountId, tail = [LoadAccount (server (trader w)) accountId]).
Proof.
  destruct (missing_fields (component w)) eqn:Hm.
  { exists []. split; [|now left]. now apply handleExecutePayment_rejects_form. }
  pose proof (executePayment_runs net w (destination (component w))
                (amount (component w)) (Some (fromCurrency (component w)))
                (Some (memo (component w)))) as Hrun.
  destruct (executePayment net (destination (component w)) (amount (component w))
              (Some (fromCurrency (component w))) (Some (memo (component w))) w)
    as [[r|e] w1] eqn:Hexec.
  - inversion Hrun as [| | | |kp acct tx result Hk Hl Hb Hs]; subst.
    assert (Hreq : requests_of
              (executePayment net (destination (component w)) (amount (component w))
                 (Some (fromCurrency (component w))) (Some (memo (component w)))) w
            = [LoadAccount (server (trader w)) (publicKey kp);
               SubmitTransaction (server (trader w)) tx]).
    { unfold requests_of. rewrite Hexec. simpl. rewrite <- app_assoc. apply drop_app_length. }
    rewrite Hreq.
    destruct (stored_secret_key w) as [sk|] eqn:Hsk.
    + exists [LoadAccount (server (trader w)) sk]. split; [|eauto].
      now apply (handleExecutePayment_with_stored_key w kp acct tx result sk).
    + exists []. split; [|now left].
      now apply (handleExecutePayment_without_stored_key w kp acct tx result).
  - exists []. split; [|now left]. rewrite app_nil_r.
    destruct (handleExecutePayment_payment_fails w e w1 Hm Hrun) as (Hlog & _).
    unfold requests_of. now rewrite Hlog, Hexec.
Qed.

(** *** The payment flow *)

(** C1, as amended: for a connected trader and a form that passes the guard
    (amount non-empty and numeric, destination non-empty), when Horizon
    returns the account of the stored key pair, the stellar-sdk accepts the
    arguments and Horizon accepts the submission, the form sends, in this
    order: the load of the account of the stored key pair; the submission of
    the transaction built on that account record and signed with the stored
    key pair alone; and, when a non-empty secret key is in local storage, one
    more account load, whose balances are shown when it succeeds.  The trade
    result is kept as the last trade. *)
Theorem payment_flow_steps w kp acct tx result :
  keypair (trader w) = Some kp ->
  missing_fields (component w) = false ->
  loadAccount_reply net (horizon_log w) (server (trader w)) (publicKey kp) = inr acct ->
  payment_transaction (trader w) kp acct (destination (component w))
    (amount (component w)) (fromCurrency (component w)) (memo (component w)) = inr tx ->
  submitTransaction_reply net
    (horizon_log w ++ [LoadAccount (server (trader w)) (publicKey kp)])
    (server (trader w)) tx = inr result ->
  (tb_sourceAccount (tx_body tx) = acct /\ tx_signatures tx = [kp])
  /\ lastTrade (component (snd (handleExecutePayment net w)))
     = Some {| id := Stellar.hash result;
               fromAsset := fromCurrency (component w);
               toAsset := "XLM";
               StellarClient.amount := parseFloat (amount (component w));
               rate := number_1;
               timestamp := clock w;
               hash := Stellar.hash result;
               status := completed |}
  /\ match stored_secret_key w with
     | None =>
         requests_of (handleExecutePayment net) w
           = [LoadAccount (server (trader w)) (publicKey kp);
              SubmitTransaction (server (trader w)) tx]
     | Some _ =>
         exists accountId,
           requests_of (handleExecutePayment net) w
             = [LoadAccount (server (trader w)) (publicKey kp);
                SubmitTransaction (server (trader w)) tx;
                LoadAccount (server (trader w)) accountId]
           /\ forall account,
                loadAccount_reply net
                  (horizon_log w ++ [LoadAccount (server (trader w)) (publicKey kp);
                                     SubmitTransaction (server (trader w)) tx])
                  (server (trader w)) accountId = inr account ->
                balance (component (snd (handleExecutePayment net w)))
                  = Some (balances_of account)
                /\ balance_shown (component (snd (handleExecutePayment net w)))
                   = Some (toFixed_2 (parseFloat (xlm (balances_of account))) +:+ " XLM")
     end.
Proof.
  intros Hk Hm Hl Hb Hs.
  split.
  { apply payment_transaction_built in Hb as (Hacct & Hsig & _). now split. }
  destruct (stored_secret_key w) as [sk|] eqn:Hsk.
  - destruct (handleExecutePayment_with_stored_key w kp acct tx result sk
                Hm Hk Hl Hb Hs Hsk) as (Hreq & Hlast & Hbal).
    split; [exact Hlast|]. exists sk. split; [exact Hreq|].
    intros account Hl2. rewrite Hl2 in Hbal.
    unfold balance_shown. rewrite Hbal. split; reflexivity.
  - destruct (handleExecutePayment_without_stored_key w kp acct tx result
                Hm Hk Hl Hb Hs Hsk) as (Hreq & Hlast).
    split; assumption.
Qed.

(** C3, as amended: the code sets one timeout, the validity timeout of the
    transaction: every transaction that [executePayment] or the form submits
    carries the 30 seconds of [setTimeout(30)].  The requests themselves, the
    account loads included, carry no timeout of the code's own. *)
Theorem submitted_transactions_expire_after_30_seconds
    {U} (w : World U) d a c m (wf : World State) r :
  r ∈ requests_of (executePayment net d a c m) w
  \/ r ∈ requests_of (handleExecutePayment net) wf ->
  request_timeout r = if is_submit r then Some 30%Z else None.
Proof.
  intros [Hr|Hr].
  - eapply requests_of_executePayment_timeout; eassumption.
  - destruct (handleExecutePayment_requests wf) as (tail & Hreq & Htail).
    rewrite Hreq in Hr. destruct (missing_fields (component wf)).
    + now apply elem_of_nil in Hr.
    + apply elem_of_app in Hr as [Hr|Hr].
      * eapply requests_of_executePayment_timeout; eassumption.
      * destruct Htail as [->|[accountId ->]].
        -- now apply elem_of_nil in Hr.
        -- apply list_elem_of_singleton in Hr as ->. reflexivity.
Qed.

(** What keeps the trader: a new trader has no key pair; [executePayment],
    [getAccountBalance] and [isReady], and the form's handlers that call
    them, leave every field of the trader as it was, whether they return or
    throw; [connect], and with it the form's mount effect, leaves the server
    and the network passphrase as they were, and [connect] leaves the key pair
    either as it was or set to the key pair of the secret it was given. *)
Lemma trader_is_written_by_connect_alone
    {U} (w : World U) d a c m accountId secretKey network (wf : World State) :
  keypair (StellarTrader_new network) = None
  /\ trader (snd (executePayment net d a c m w)) = trader w
  /\ trader (snd (getAccountBalance net accountId w)) = trader w
  /\ trader (snd (isReady w)) = trader w
  /\ trader (snd (handleExecutePayment net wf)) = trader wf
  /\ trader (snd (handleOpenPaymentDialog wf)) = trader wf
  /\ server (trader (snd (connect secretKey w))) = server (trader w)
  /\ networkPassphrase (trader (snd (connect secretKey w))) = networkPassphrase (trader w)
  /\ server (trader (snd (connectToStellar net wf))) = server (trader wf)
  /\ networkPassphrase (trader (snd (connectToStellar net wf)))
     = networkPassphrase (trader wf)
  /\ (keypair (trader (snd (connect secretKey w))) = keypair (trader w)
      \/ exists kp, Keypair_fromSecret secretKey = inr kp
                    /\ keypair (trader (snd (connect secretKey w))) = Some kp).
Proof.
  split; [reflexivity|].
  split; [apply (executePayment_same_trader net d a c m w)|].
  split; [apply (getAccountBalance_same_trader net accountId w)|].
  split; [apply (isReady_same_trader w)|].
  split; [apply (handleExecutePayment_same_trader wf)|].
  split; [apply (handleOpenPaymentDialog_same_trader wf)|].
  split; [apply (connect_same_server secretKey w)|].
  split; [apply (connect_same_server secretKey w)|].
  split; [apply (connectToStellar_same_server wf)|].
  split; [apply (connectToStellar_same_server wf)|].
  destruct (Keypair_fromSecret secretKey) as [e|kp] eqn:Hs.
  - left. now rewrite (connect_invalid w secretKey e Hs).
  - right. exists kp. now rewrite (connect_valid w secretKey kp Hs).
Qed.

(** C5: a call of [executePayment] submits at most one transaction; when the
    submission fails, the failed submission is the last request of the call;
    nothing is put into local storage for later; and the form's handler, too,
    submits at most one transaction per click. *)
Theorem payment_is_submitted_at_most_once {U} (w : World U) d a c m (wf : World State) :
  length (List.filter is_submit (requests_of (executePayment net d a c m) w)) <= 1
  /\ (forall kp acct tx e,
       keypair (trader w) = Some kp ->
       loadAccount_reply net (horizon_log w) (server (trader w)) (publicKey kp)
         = inr acct ->
       payment_transaction (trader w) kp acct d a (default "XLM" c) (default "" m)
         = inr tx ->
       submitTransaction_reply net
         (horizon_log w ++ [LoadAccount (server (trader w)) (publicKey kp)])
         (server (trader w)) tx = inl e ->
       requests_of (executePayment net d a c m) w
         = [LoadAccount (server (trader w)) (publicKey kp);
            SubmitTransaction (server (trader w)) tx]
       /\ fst (executePayment net d a c m w) = Thrown (payment_failed e))
  /\ localStorage (snd (executePayment net d a c m w)) = localStorage w
  /\ length (List.filter is_submit (requests_of (handleExecutePayment net) wf)) <= 1
  /\ localStorage (snd (handleExecutePayment net wf)) = localStorage wf.
Proof.
  split; [apply requests_of_executePayment_submissions|].
  split.
  { intros kp acct tx e Hk Hl Hb Hs. unfold requests_of.
    rewrite (executePayment_submit_fails net w d a c m kp acct tx e Hk Hl Hb Hs). simpl.
    rewrite (proj1 (proj2 (payment_failure_logged_frame e _))). simpl.
    rewrite <- app_assoc. split; [apply drop_app_length|reflexivity]. }
  split; [apply (executePayment_same_storage net d a c m w)|].
  split; [|apply (handleExecutePayment_same_storage wf)].
  destruct (handleExecutePayment_requests wf) as (tail & -> & Htail).
  destruct (missing_fields (component wf)); [simpl; lia|].
  rewrite List.filter_app, length_app.
  pose proof (requests_of_executePayment_submissions net wf
                (destination (component wf)) (amount (component wf))
                (Some (fromCurrency (component wf))) (Some (memo (component wf)))).
  destruct Htail as [->|[accountId ->]]; simpl; lia.
Qed.

End FormRuns.

(** *** The transaction list *)

Section Records.

Import TransactionList.

Context {rt : JsRuntime}.

Lemma index_imap_renderItem (ts : list Transaction) :
  index <$> imap renderItem ts = seq 0 (length ts).
Proof.
  rewrite fmap_imap.
  rewrite (imap_ext (fun n => index ∘ renderItem n) (fun n _ => n) ts)
    by reflexivity.
  rewrite (imap_seq_0 ts (fun n => n)). apply list_fmap_id.
Qed.

(** C7: the list draws the transactions it is given only when it is told
    not to show 'View All'.  With [showViewAll] true or left out, the default,
    rendering throws 'ArrowRight is not defined' and nothing is drawn, whatever
    the transactions.  With [showViewAll] false it draws the placeholder 'No
    transactions yet' exactly for the empty list, and else one item per
    transaction, in the order given, numbered from 0, each drawn from its own
    transaction: keyed by the id, with the icon of the type, the name or
    'Unknown', the formatted date, the amount with the sign and colour of the
    type, and the badge of the status. *)
Theorem list_is_drawn_only_without_view_all props :
  (showViewAll props <> Some false ->
   TransactionList props = inl (new_Error "ArrowRight is not defined"))
  /\ (showViewAll props = Some false ->
      exists r,
        TransactionList props = inr r
        /\ viewAll r = false
        /\ (listing r = Placeholder "No transactions yet" <-> transactions props = [])
        /\ keys_shown r = id <$> transactions props
        /\ index <$> items_shown r = seq 0 (length (transactions props))
        /\ Forall2
             (fun t item =>
                key item = id t
                /\ icon item
                   = match type t with
                     | sent => Icon "ArrowUpRight" "text-red-500"
                     | received => Icon "ArrowDownLeft" "text-green-500"
                     | convert => Icon "RefreshCw" "text-blue-500"
                     end
                /\ title item = (if truthy (name t) then name t else "Unknown")
                /\ subtitle item = formatDate (date t)
                /\ amountClass item
                   = "text-sm font-medium "
                     +:+ match type t with
                         | sent => "text-red-500"
                         | received | convert => "text-green-500"
                         end
                /\ amountText item
                   = match type t with
                     | sent => "-"
                     | received => "+"
                     | convert => ""
                     end
                     +:+ getCurrency t
                     +:+ toLocaleString_2 (Math_abs (amount t))
                /\ badgeClass item = "text-[10px] mt-1 " +:+ getStatusColor (status t)
                /\ badgeText item
                   = toUpperCase (charAt_0 (status_string (status t)))
                     +:+ slice_1 (status_string (status t)))
             (transactions props) (items_shown r)).
Proof.
  unfold TransactionList. split.
  - intros Hshow. destruct (showViewAll props) as [[]|]; simpl; try reflexivity.
    now destruct Hshow.
  - intros ->. simpl. eexists. split; [reflexivity|]. simpl.
    assert (Hitems : items_shown
                       {| heading := "Recent Transactions"; viewAll := false;
                          listing := match transactions props with
                                     | [] => Placeholder "No transactions yet"
                                     | _ :: _ => Items (imap renderItem (transactions props))
                                     end |}
                     = imap renderItem (transactions props)).
    { unfold items_shown. simpl. destruct (transactions props); reflexivity. }
    split; [reflexivity|]. split; [|split; [|split]].
    + destruct (transactions props); split; intros; congruence.
    + unfold keys_shown. rewrite Hitems, fmap_imap. apply (imap_const id).
    + rewrite Hitems. apply index_imap_renderItem.
    + rewrite Hitems. apply Forall2_same_length_lookup. split.
      * now rewrite length_imap.
      * intros i t item Ht Hitem. rewrite list_lookup_imap, Ht in Hitem.
        injection Hitem as <-. simpl.
        repeat split; now destruct (type t).
Qed.

End Records.

(** ** The code run on the small instance *)

Section Examples.

Import Stellar StellarClient StellarTradeExecutor.

Local Abbreviation page := (Demo.page "25" "GBOB").
Local Abbreviation pay net :=
  (@executePayment Demo.runtime Demo.sdk net (@State Demo.runtime)).
Local Abbreviation confirm net := (@handleExecutePayment Demo.runtime Demo.sdk net).

(** A payment that goes through. *)
Example payment_goes_through :
  pay Demo.network "GBOB" "25" (Some "XLM") (Some "rent") page
  = (Returned Demo.trade,
     sent (SubmitTransaction Demo.horizon Demo.payment)
       (sent (LoadAccount Demo.horizon "GALICE") page)).
Proof. vm_compute. reflexivity. Qed.

(** After a payment that went through, the form asks Horizon for the account
    named by the stored secret key, [SALICE], not for the source account,
    [GALICE]; Horizon knows no such account, and the form reports the payment
    as failed and shows no balance. *)
Example balance_is_reloaded_by_secret_key :
  publicKey (StellarSdk:=Demo.sdk) "SALICE" = "GALICE"
  /\ requests_of (confirm Demo.network) page
     = [LoadAccount Demo.horizon "GALICE";
        SubmitTransaction Demo.horizon Demo.payment;
        LoadAccount Demo.horizon "SALICE"]
  /\ balance (component (snd (confirm Demo.network page))) = None
  /\ toasts (snd (confirm Demo.network page))
     = [{| toast_kind := toast_success;
           toast_message := "Payment executed successfully!" |};
        {| toast_kind := toast_error;
           toast_message := "Payment failed: Failed to get account balance: Not Found" |}].
Proof. vm_compute. repeat split. Qed.

(** The form of that page passes the guard and the payment goes through: the
    steps of [payment_flow_steps], on the page. *)
Lemma payment_flow_steps_on_page :
  (keypair (trader page) = Some ("SALICE" : @Keypair Demo.sdk)
   /\ missing_fields (component page) = false
   /\ loadAccount_reply Demo.network (horizon_log page) (server (trader page)) "GALICE"
      = inr (Demo.account_of "GALICE")
   /\ payment_transaction (trader page) ("SALICE" : @Keypair Demo.sdk)
        (Demo.account_of "GALICE") "GBOB" "25" "XLM" "rent" = inr Demo.payment
   /\ submitTransaction_reply Demo.network
        (horizon_log page ++ [LoadAccount Demo.horizon "GALICE"])
        (server (trader page)) Demo.payment = inr Demo.receipt)
  /\ tx_signatures Demo.payment = [("SALICE" : @Keypair Demo.sdk)]
  /\ lastTrade (component (snd (confirm Demo.network page))) = Some Demo.trade
  /\ exists accountId,
       requests_of (confirm Demo.network) page
       = [LoadAccount Demo.horizon "GALICE";
          SubmitTransaction Demo.horizon Demo.payment;
          LoadAccount Demo.horizon accountId].
Proof.
  assert (H1 : keypair (trader page) = Some ("SALICE" : @Keypair Demo.sdk))
    by reflexivity.
  assert (H2 : missing_fields (component page) = false) by reflexivity.
  assert (H3 : loadAccount_reply Demo.network (horizon_log page) (server (trader page))
                 (publicKey ("SALICE" : @Keypair Demo.sdk))
               = inr (Demo.account_of "GALICE")) by reflexivity.
  assert (H4 : payment_transaction (trader page) ("SALICE" : @Keypair Demo.sdk)
                 (Demo.account_of "GALICE") (destination (component page))
                 (amount (component page)) (fromCurrency (component page))
                 (memo (component page)) = inr Demo.payment) by reflexivity.
  assert (H5 : submitTransaction_reply Demo.network
                 (horizon_log page
                  ++ [LoadAccount (server (trader page))
                        (publicKey ("SALICE" : @Keypair Demo.sdk))])
                 (server (trader page)) Demo.payment = inr Demo.receipt) by reflexivity.
  destruct (payment_flow_steps Demo.network page "SALICE" (Demo.account_of "GALICE")
              Demo.payment Demo.receipt H1 H2 H3 H4 H5) as ((_ & Hsig) & Hlast & Hreq).
  assert (Hsk : stored_secret_key page = Some "SALICE") by (vm_compute; reflexivity).
  rewrite Hsk in Hreq. destruct Hreq as (accountId & Hreq & _).
  split; [repeat split; assumption|].
  split; [exact Hsig|]. split; [exact Hlast|]. exists accountId. exact Hreq.
Defined.

(** C1, as stated, fails on two inputs of a connected trader: with the amount
    left empty the form sends nothing at all; with a destination that the
    stellar-sdk rejects it loads the account and submits nothing. *)
Lemma payment_steps_not_performed :
  keypair (trader (Demo.page "" "GBOB")) = Some ("SALICE" : @Keypair Demo.sdk)
  /\ ~ payment_steps_performed (Demo.page "" "GBOB")
        (snd (confirm Demo.network (Demo.page "" "GBOB")))
  /\ keypair (trader (Demo.page "25" "BOB")) = Some ("SALICE" : @Keypair Demo.sdk)
  /\ ~ payment_steps_performed (Demo.page "25" "BOB")
        (snd (confirm Demo.network (Demo.page "25" "BOB"))).
Proof.
  split; [reflexivity|]. split; [|split; [reflexivity|]].
  - intros (kp & tx & rest & _ & _ & Hlog).
    assert (Hnone : horizon_log (snd (confirm Demo.network (Demo.page "" "GBOB"))) = [])
      by (vm_compute; reflexivity).
    rewrite Hnone in Hlog. discriminate Hlog.
  - intros (kp & tx & rest & _ & _ & Hlog).
    assert (Hone : horizon_log (snd (confirm Demo.network (Demo.page "25" "BOB")))
                   = [LoadAccount Demo.horizon "GALICE"])
      by (vm_compute; reflexivity).
    rewrite Hone in Hlog. simpl in Hlog. injection Hlog as _ Hnil. discriminate Hnil.
Qed.

(** C3, as stated, fails: the transaction of the payment above carries a
    timeout that the code has set. *)
Lemma payment_carries_a_timeout :
  ~ Forall (fun r => request_timeout r = None)
      (requests_of (pay Demo.network "GBOB" "25" (Some "XLM") (Some "rent")) page).
Proof.
  assert (Hreq : requests_of (pay Demo.network "GBOB" "25" (Some "XLM") (Some "rent")) page
                 = [LoadAccount Demo.horizon "GALICE";
                    SubmitTransaction Demo.horizon Demo.payment])
    by (vm_compute; reflexivity).
  rewrite Hreq, !Forall_cons. intros (_ & Htimeout & _). discriminate Htimeout.
Qed.

(** The timeout it carries is the 30 seconds of [setTimeout(30)]. *)
Lemma payment_expires_after_30_seconds :
  (SubmitTransaction Demo.horizon Demo.payment
     ∈ requests_of (pay Demo.network "GBOB" "25" (Some "XLM") (Some "rent")) page
   \/ SubmitTransaction Demo.horizon Demo.payment
        ∈ requests_of (confirm Demo.network) page)
  /\ request_timeout (SubmitTransaction Demo.horizon Demo.payment) = Some 30%Z.
Proof.
  assert (Hin : SubmitTransaction Demo.horizon Demo.payment
                  ∈ requests_of (pay Demo.network "GBOB" "25" (Some "XLM") (Some "rent"))
                      page).
  { assert (Hreq : requests_of (pay Demo.network "GBOB" "25" (Some "XLM") (Some "rent"))
                     page
                   = [LoadAccount Demo.horizon "GALICE";
                      SubmitTransaction Demo.horizon Demo.payment])
      by (vm_compute; reflexivity).
    rewrite Hreq. apply list_elem_of_further, list_elem_of_here. }
  split; [left; exact Hin|].
  exact (submitted_transactions_expire_after_30_seconds Demo.network page
           "GBOB" "25" (Some "XLM") (Some "rent") page
           (SubmitTransaction Demo.horizon Demo.payment) (or_introl Hin)).
Defined.

(** The trade result of the payment above. *)
Lemma trade_result_on_page :
  pay Demo.network "GBOB" "25" (Some "XLM") (Some "rent") page
    = (Returned Demo.trade,
       sent (SubmitTransaction Demo.horizon Demo.payment)
         (sent (LoadAccount Demo.horizon "GALICE") page))
  /\ status Demo.trade = completed
  /\ id Demo.trade = hash Demo.trade
  /\ rate Demo.trade = number_1
  /\ toAsset Demo.trade = "XLM"
  /\ StellarClient.amount Demo.trade = parseFloat "25".
Proof.
  assert (Hrun : pay Demo.network "GBOB" "25" (Some "XLM") (Some "rent") page
                 = (Returned Demo.trade,
                    sent (SubmitTransaction Demo.horizon Demo.payment)
                      (sent (LoadAccount Demo.horizon "GALICE") page)))
    by (vm_compute; reflexivity).
  destruct (trade_result_of_successful_payment Demo.network page
              "GBOB" "25" (Some "XLM") (Some "rent") Demo.trade _ Hrun)
    as (Hs & _ & _ & Hid & Hrate & Hto & Hamount & _).
  split; [exact Hrun|]. repeat split; assumption.
Defined.

(** A submission that Horizon rejects, and an account it does not know. *)
Lemma rejected_submission_is_wrapped :
  fst (pay Demo.rejecting "GBOB" "25" (Some "XLM") (Some "rent") page)
    = Thrown (new_Error "Payment failed: Request failed with status code 400")
  /\ requests_of (pay Demo.rejecting "GBOB" "25" (Some "XLM") (Some "rent")) page
     = [LoadAccount Demo.horizon "GALICE"; SubmitTransaction Demo.horizon Demo.payment]
  /\ fst (@getAccountBalance Demo.sdk Demo.rejecting _ "SALICE" page)
     = Thrown (new_Error "Failed to get account balance: Not Found").
Proof.
  assert (Hfail : payment_network_failure Demo.rejecting page
                    "GBOB" "25" (Some "XLM") (Some "rent") Demo.bad_request
                    [LoadAccount Demo.horizon "GALICE";
                     SubmitTransaction Demo.horizon Demo.payment])
    by (apply (submit_failure Demo.rejecting page "GBOB" "25" (Some "XLM") (Some "rent")
                 Demo.bad_request ("SALICE" : @Keypair Demo.sdk)
                 (Demo.account_of "GALICE") Demo.payment); reflexivity).
  assert (Hload : loadAccount_reply Demo.rejecting (horizon_log page)
                    (server (trader page)) "SALICE" = inl Demo.not_found)
    by reflexivity.
  destruct (@network_failures_are_wrapped Demo.runtime Demo.sdk Demo.rejecting
              (@State Demo.runtime))
    as [Hpay Hbalance].
  destruct (Hpay page "GBOB" "25" (Some "XLM") (Some "rent") _ _ Hfail)
    as (Hthrown & _ & Hreq).
  destruct (Hbalance page "SALICE" Demo.not_found Hload) as (Hthrown' & _).
  split; [exact Hthrown|]. split; [exact Hreq|exact Hthrown'].
Defined.

(** The page is ready, and the payment starts with the load of the account. *)
Lemma ready_page_loads_the_account :
  fst (isReady page) = Returned true
  /\ exists kp rest,
       keypair (trader page) = Some kp
       /\ requests_of (pay Demo.network "GBOB" "25" (Some "XLM") (Some "rent")) page
          = LoadAccount (server (trader page)) (publicKey kp) :: rest.
Proof.
  assert (Hready : fst (isReady page) = Returned true) by reflexivity.
  split; [exact Hready|].
  exact (proj2 (proj2 (not_connected_iff_not_ready Demo.network page
                         "GBOB" "25" (Some "XLM") (Some "rent"))) Hready).
Defined.

(** A submission that Horizon rejects is the last request of the call. *)
Lemma rejected_payment_is_not_resubmitted :
  requests_of (pay Demo.rejecting "GBOB" "25" (Some "XLM") (Some "rent")) page
    = [LoadAccount Demo.horizon "GALICE"; SubmitTransaction Demo.horizon Demo.payment]
  /\ fst (pay Demo.rejecting "GBOB" "25" (Some "XLM") (Some "rent") page)
     = Thrown (payment_failed Demo.bad_request).
Proof.
  exact (proj1 (proj2 (payment_is_submitted_at_most_once Demo.rejecting page
                         "GBOB" "25" (Some "XLM") (Some "rent") page))
           ("SALICE" : @Keypair Demo.sdk) (Demo.account_of "GALICE") Demo.payment
           Demo.bad_request eq_refl eq_refl eq_refl eq_refl).
Defined.

End Examples.

(** ** More of the trader *)

Section MoreOfTheClient.

Import Stellar StellarClient.

Context {rt : JsRuntime} {sdk : StellarSdk} (net : Horizon) {U : Type}.

Implicit Types (w : World U) (kp : Keypair) (e : JsError).

#[global] Instance same_page_refl : Reflexive (same_page (U:=U)).
Proof. intros w. repeat split. Qed.

#[global] Instance same_page_trans : Transitive (same_page (U:=U)).
Proof.
  intros w1 w2 w3 (? & ? & ? & ?) (? & ? & ? & ?). unfold same_page.
  repeat split; congruence.
Qed.

#[global] Instance nothing_sent_refl : Reflexive (nothing_sent (U:=U)).
Proof. intros w. reflexivity. Qed.

#[global] Instance nothing_sent_trans : Transitive (nothing_sent (U:=U)).
Proof. intros w1 w2 w3 H1 H2. unfold nothing_sent in *. congruence. Qed.

#[global] Instance still_ready_refl : Reflexive (still_ready (U:=U)).
Proof. intros w H. exact H. Qed.

#[global] Instance still_ready_trans : Transitive (still_ready (U:=U)).
Proof. intros w1 w2 w3 H1 H2 H. apply H2, H1, H. Qed.

Lemma or_else_truthy o d : truthy d = true -> truthy (or_else o d) = true.
Proof.
  intros Hd. unfold or_else. destruct o as [s|]; [|exact Hd].
  destruct (truthy s) eqn:Hs; assumption.
Qed.

(** X1: a trader is built without a key pair, for the test network unless
    the public one is asked for; on a trader as built, [isReady()] is [false]
    and [executePayment] throws 'Not connected' and leaves the whole page as
    it was: nothing sent, nothing logged. *)
Theorem new_trader_changes_nothing w network d a c m :
  trader w = StellarTrader_new network ->
  fst (isReady w) = Returned false
  /\ executePayment net d a c m w
     = (Thrown (new_Error "Not connected. Call connect() with a valid secret key first."),
        w)
  /\ (network <> Some public ->
      serverURL (server (trader w)) = "https://horizon-testnet.stellar.org"
      /\ networkPassphrase (trader w) = Networks_TESTNET)
  /\ (network = Some public ->
      serverURL (server (trader w)) = "https://horizon.stellar.org"
      /\ networkPassphrase (trader w) = Networks_PUBLIC).
Proof.
  intros Hnew.
  assert (Hk : keypair (trader w) = None) by now rewrite Hnew.
  split.
  { unfold isReady, bind, get, ret. simpl. now rewrite Hk. }
  split; [now apply executePayment_not_connected|].
  rewrite Hnew. split.
  - intros Hn. destruct network as [[]|]; simpl; auto. now destruct Hn.
  - intros ->. simpl. auto.
Qed.

Lemma connect_still_ready secretKey :
  preserves (still_ready (U:=U)) (connect secretKey).
Proof.
  intros w Hready. destruct (Keypair_fromSecret secretKey) as [e1|kp1] eqn:H1.
  - now rewrite (connect_invalid _ secretKey e1 H1).
  - rewrite (connect_valid _ secretKey kp1 H1). simpl. eauto.
Qed.

(** X2: of two calls of [connect] in a row the last valid secret wins: the
    key pair is the one of the second secret when that is valid, else the one
    of the first when that is valid, else the one there was before; and a
    trader that was ready stays ready through any [connect]. *)
Theorem connect_twice w s1 s2 :
  keypair (trader (snd (connect s2 (snd (connect s1 w)))))
    = match Keypair_fromSecret s2, Keypair_fromSecret s1 with
      | inr kp2, _ => Some kp2
      | inl _, inr kp1 => Some kp1
      | inl _, inl _ => keypair (trader w)
      end
  /\ still_ready w (snd (connect s1 w)).
Proof.
  split.
  - destruct (Keypair_fromSecret s2) as [e2|kp2] eqn:H2.
    + rewrite (connect_invalid _ s2 e2 H2). simpl.
      destruct (Keypair_fromSecret s1) as [e1|kp1] eqn:H1.
      * now rewrite (connect_invalid _ s1 e1 H1).
      * now rewrite (connect_valid _ s1 kp1 H1).
    + now rewrite (connect_valid _ s2 kp2 H2).
  - apply connect_still_ready.
Qed.

Lemma console_error_same_page line : preserves (same_page (U:=U)) (console_error line).
Proof. intros w. repeat split. Qed.

Lemma server_loadAccount_same_page srv accountId :
  preserves (same_page (U:=U)) (server_loadAccount net srv accountId).
Proof.
  unfold server_loadAccount. frame_steps. apply preserves_modify. intros w. repeat split.
Qed.

Lemma server_submitTransaction_same_page srv tx :
  preserves (same_page (U:=U)) (server_submitTransaction net srv tx).
Proof.
  unfold server_submitTransaction. frame_steps. apply preserves_modify.
  intros w. repeat split.
Qed.

Lemma executePayment_same_page d a c m :
  preserves (same_page (U:=U)) (executePayment net d a c m).
Proof.
  unfold executePayment, Date_now. frame_steps;
    auto using console_error_same_page, server_loadAccount_same_page,
      server_submitTransaction_same_page.
Qed.

Lemma getAccountBalance_same_page accountId :
  preserves (same_page (U:=U)) (getAccountBalance net accountId).
Proof.
  unfold getAccountBalance. frame_steps;
    auto using console_error_same_page, server_loadAccount_same_page.
Qed.

Lemma connect_same_page secretKey : preserves (same_page (U:=U)) (connect secretKey).
Proof.
  unfold connect, console_error. frame_steps; apply preserves_modify; intros w;
    repeat split.
Qed.

Lemma connect_nothing_sent secretKey :
  preserves (nothing_sent (U:=U)) (connect secretKey).
Proof.
  unfold connect, console_error. frame_steps; apply preserves_modify; intros w;
    reflexivity.
Qed.

(** X3: the trader's methods never touch the page around them: toasts,
    component state, local storage and clock are the same after
    [executePayment], [getAccountBalance] and [connect], on every path; and
    [connect] sends nothing to Horizon, so a secret is accepted or refused
    without the network. *)
Theorem trader_leaves_the_page_alone w d a c m accountId secretKey :
  same_page w (snd (executePayment net d a c m w))
  /\ same_page w (snd (getAccountBalance net accountId w))
  /\ same_page w (snd (connect secretKey w))
  /\ requests_of (connect secretKey) w = [].
Proof.
  split; [apply executePayment_same_page|].
  split; [apply getAccountBalance_same_page|].
  split; [apply connect_same_page|].
  unfold requests_of. rewrite (connect_nothing_sent secretKey w). apply drop_all.
Qed.

(** X4: [getAccountBalance] asks for no connection: with or without a key
    pair it sends exactly one request, the load of the account it is given;
    what it returns never holds an empty string (a missing or empty balance
    reads '0'), and what it throws is always its own wrapped failure. *)
Theorem getAccountBalance_one_request w accountId :
  requests_of (getAccountBalance net accountId) w
    = [LoadAccount (server (trader w)) accountId]
  /\ match fst (getAccountBalance net accountId w) with
     | Returned b => truthy (xlm b) = true /\ truthy (usd b) = true
     | Thrown e' =>
         exists e,
           loadAccount_reply net (horizon_log w) (server (trader w)) accountId = inl e
           /\ e' = balance_failed e
     end.
Proof.
  unfold requests_of.
  destruct (loadAccount_reply net (horizon_log w) (server (trader w)) accountId)
    as [e|account] eqn:Hl.
  - rewrite (getAccountBalance_fails net w accountId e Hl). simpl.
    split; [apply drop_app_length|]. eauto.
  - rewrite (getAccountBalance_succeeds net w accountId account Hl). simpl.
    split; [apply drop_app_length|].
    split; apply or_else_truthy; reflexivity.
Qed.

Lemma balance_of_sound p (bs : list BalanceLine) :
  balance_of p bs = "0"
  \/ exists b, b ∈ bs /\ p b = true /\ balance_of p bs = balance b.
Proof.
  unfold balance_of. destruct (List.find p bs) as [b|] eqn:Hfind; simpl.
  - apply List.find_some in Hfind as [Hin Hp]. apply list_elem_of_In in Hin.
    destruct (truthy (balance b)); [right; eauto|now left].
  - now left.
Qed.

Lemma balance_of_none p (bs : list BalanceLine) :
  (forall b, b ∈ bs -> p b = false) -> balance_of p bs = "0".
Proof.
  intros Hnone. unfold balance_of.
  destruct (List.find p bs) as [b|] eqn:Hfind; [|reflexivity].
  apply List.find_some in Hfind as [Hin Hp]. apply list_elem_of_In in Hin.
  rewrite (Hnone b Hin) in Hp. discriminate Hp.
Qed.

(** X5: when Horizon returns the account, each balance that
    [getAccountBalance] returns is '0' or the balance of one of the account's
    lines of the right kind (a native line for [xlm], a line with asset code
    'USD' for [usd]); an account with no line of a kind reads '0' for it. *)
Theorem getAccountBalance_reads_the_lines w accountId account :
  loadAccount_reply net (horizon_log w) (server (trader w)) accountId = inr account ->
  exists b,
    fst (getAccountBalance net accountId w) = Returned b
    /\ (xlm b = "0"
        \/ exists line, line ∈ balances account /\ asset_type line = "native"
                        /\ xlm b = balance line)
    /\ (usd b = "0"
        \/ exists line, line ∈ balances account /\ asset_code line = Some "USD"
                        /\ usd b = balance line)
    /\ ((forall line, line ∈ balances account -> asset_type line <> "native") ->
        xlm b = "0")
    /\ ((forall line, line ∈ balances account -> asset_code line <> Some "USD") ->
        usd b = "0").
Proof.
  intros Hl. rewrite (getAccountBalance_succeeds net w accountId account Hl). simpl.
  eexists. split; [reflexivity|]. unfold balances_of. simpl.
  split; [|split; [|split]].
  - destruct (balance_of_sound (fun b => String.eqb (asset_type b) "native")
                (balances account)) as [H0|(line & Hin & Hp & Heq)]; [now left|].
    right. exists line. apply String.eqb_eq in Hp. auto.
  - destruct (balance_of_sound
                (fun b => match asset_code b with
                          | Some c => String.eqb c "USD"
                          | None => false
                          end) (balances account)) as [H0|(line & Hin & Hp & Heq)];
      [now left|].
    right. exists line. destruct (asset_code line) as [c|]; [|discriminate Hp].
    apply String.eqb_eq in Hp as ->. auto.
  - intros Hnone. apply balance_of_none. intros line Hin.
    apply String.eqb_neq. now apply Hnone.
  - intros Hnone. apply balance_of_none. intros line Hin.
    specialize (Hnone line Hin). destruct (asset_code line) as [c|]; [|reflexivity].
    apply String.eqb_neq. congruence.
Qed.

(** X6: a transaction that [executePayment] submits goes to the trader's
    server, is built on the account record Horizon returned for the stored key
    pair, pays fee '100' under the trader's network passphrase, is signed by
    the stored key pair alone, and holds one operation: a payment from the
    payer's own account of the amount and to the destination given, in the
    native asset for code 'XLM' and else in an asset of that code issued by
    the payer; it holds the memo exactly when the memo is not empty. *)
Theorem submitted_payment_content w d a c m srv tx :
  SubmitTransaction srv tx ∈ requests_of (executePayment net d a c m) w ->
  exists kp,
    keypair (trader w) = Some kp
    /\ srv = server (trader w)
    /\ loadAccount_reply net (horizon_log w) srv (publicKey kp)
       = inr (tb_sourceAccount (tx_body tx))
    /\ tx_signatures tx = [kp]
    /\ tb_options (tx_body tx)
       = {| fee := "100"; opt_networkPassphrase := networkPassphrase (trader w) |}
    /\ tb_operations (tx_body tx)
       = [Operation_payment
            {| destination := d;
               asset := if String.eqb (default "XLM" c) "XLM" then Asset_native
                        else Asset_credit (default "XLM" c) (publicKey kp);
               Stellar.amount := a;
               source := publicKey kp |}]
    /\ tb_memo (tx_body tx)
       = (if truthy (default "" m) then Some (Memo_text (default "" m)) else None).
Proof.
  intros Hin. destruct (executePayment_requests net w d a c m) as [_ Hreq].
  destruct (keypair (trader w)) as [kp|].
  - destruct Hreq as [Hreq|(acct & tx' & Hl & Hb & Hreq)]; rewrite Hreq in Hin.
    + apply list_elem_of_singleton in Hin. discriminate Hin.
    + rewrite !elem_of_cons, elem_of_nil in Hin.
      destruct Hin as [Hin|[Hin|[]]]; [discriminate Hin|].
      injection Hin as -> ->.
      apply payment_transaction_built in Hb as (Hacct & Hsig & _ & Hopt & Hmemo & Hops).
      exists kp. rewrite Hacct. repeat split; assumption.
  - rewrite Hreq in Hin. now apply elem_of_nil in Hin.
Qed.

(** X7: when the stellar-sdk rejects an argument (an invalid destination, a
    memo too long), [executePayment] has loaded the account and submits
    nothing: it throws 'Payment failed: ' with the sdk's message. *)
Theorem sdk_rejection_stops_before_submission w d a c m kp acct e :
  keypair (trader w) = Some kp ->
  loadAccount_reply net (horizon_log w) (server (trader w)) (publicKey kp) = inr acct ->
  payment_transaction (trader w) kp acct d a (default "XLM" c) (default "" m) = inl e ->
  fst (executePayment net d a c m w)
    = Thrown (new_Error ("Payment failed: " +:+ or_else (message e) "Unknown error"))
  /\ requests_of (executePayment net d a c m) w
     = [LoadAccount (server (trader w)) (publicKey kp)]
  /\ List.filter is_submit (requests_of (executePayment net d a c m) w) = [].
Proof.
  intros Hk Hl Hb. unfold requests_of.
  rewrite (executePayment_build_fails net w d a c m kp acct e Hk Hl Hb). simpl.
  rewrite (proj1 (proj2 (payment_failure_logged_frame e _))). simpl.
  rewrite drop_app_length. repeat split.
Qed.

Lemma app_cons_neq {A} (l : list A) x l' : l ++ x :: l' <> l.
Proof.
  intros H. rewrite <- (app_nil_r l) in H at 2. apply app_inv_head in H. discriminate H.
Qed.

(** X8: [executePayment] writes to the console exactly when a connected call
    fails: a call that returns, and a call on a trader without a key pair,
    log nothing; and every error a connected call throws is its wrapped
    failure, 'Payment failed: ' and a message. *)
Theorem executePayment_logs_iff_it_fails w d a c m :
  (console (snd (executePayment net d a c m w)) = console w
   <-> keypair (trader w) = None
       \/ exists r, fst (executePayment net d a c m w) = Returned r)
  /\ (forall e', fst (executePayment net d a c m w) = Thrown e' ->
      keypair (trader w) = None
      \/ exists e, e' = new_Error ("Payment failed: "
                                    +:+ or_else (message e) "Unknown error")).
Proof.
  generalize (executePayment_runs net w d a c m).
  generalize (executePayment net d a c m w). intros run Hrun.
  destruct Hrun as [Hk|kp e Hk Hl|kp acct e Hk Hl Hb
    |kp acct tx e Hk Hl Hb Hs|kp acct tx result Hk Hl Hb Hs]; simpl.
  - split; [split; auto|]. intros e' _. now left.
  - destruct (payment_failure_logged_console e
                (sent (LoadAccount (server (trader w)) (publicKey kp)) w))
      as (details & -> & _). simpl. split.
    + split.
      * intros H. now apply app_cons_neq in H.
      * intros [H|[r H]]; [congruence|discriminate H].
    + intros e' [= <-]. right. now exists e.
  - destruct (payment_failure_logged_console e
                (sent (LoadAccount (server (trader w)) (publicKey kp)) w))
      as (details & -> & _). simpl. split.
    + split.
      * intros H. now apply app_cons_neq in H.
      * intros [H|[r H]]; [congruence|discriminate H].
    + intros e' [= <-]. right. now exists e.
  - destruct (payment_failure_logged_console e
                (sent (SubmitTransaction (server (trader w)) tx)
                   (sent (LoadAccount (server (trader w)) (publicKey kp)) w)))
      as (details & -> & _). simpl. split.
    + split.
      * intros H. now apply app_cons_neq in H.
      * intros [H|[r H]]; [congruence|discriminate H].
    + intros e' [= <-]. right. now exists e.
  - split; [split; eauto|]. intros e' H. discriminate H.
Qed.

End MoreOfTheClient.

(** ** More of the payment form *)

Section MoreOfTheForm.

Import Stellar StellarClient StellarTradeExecutor.

Context {rt : JsRuntime} {sdk : StellarSdk} (net : Horizon).

Implicit Types (w : World State) (kp : Keypair) (e : JsError).

Local Arguments executePayment : simpl never.
Local Arguments getAccountBalance : simpl never.
Local Arguments connect : simpl never.

Ltac page_unfold :=
  unfold mount, connectToStellar, handleExecutePayment, handleOpenPaymentDialog,
    localStorage_getItem, setIsExecuting, setIsLoading, setStellarStatus,
    setLastTrade, setBalance, setAmount, setDestination, setMemo,
    setFromCurrency, setToCurrency, setShowPaymentDialog, storage_changed, toast,
    update, isReady, console_error, try_catch, try_finally, bind, ret, throw, get,
    modify.

(** What a returned trade result is, and that the call kept the trader and
    the component. *)
Lemma executePayment_returns w d a c m r w' :
  executePayment net d a c m w = (Returned r, w') ->
  status r = completed /\ id r = hash r /\ toAsset r = "XLM"
  /\ trader w' = trader w /\ component w' = component w.
Proof.
  intros Hrun. generalize (executePayment_runs net w d a c m). rewrite Hrun.
  inversion 1; subst; simpl. repeat split.
Qed.

Lemma executePayment_throws w d a c m e w' :
  executePayment net d a c m w = (Thrown e, w') ->
  trader w' = trader w /\ component w' = component w /\ toasts w' = toasts w
  /\ localStorage w' = localStorage w.
Proof.
  intros Hrun.
  pose proof (executePayment_same_trader net d a c m w) as Ht.
  pose proof (executePayment_same_page net d a c m w) as (Hto & Hc & Hs & _).
  rewrite Hrun in Ht, Hto, Hc, Hs. simpl in *. auto.
Qed.

(** X9: a click on 'Confirm' never lets an error escape and never leaves the
    spinner on: the handler returns on every path, and afterwards
    [isExecuting] is [false] whenever the form passed the guard (and as it
    was when it did not). *)
Theorem confirm_never_throws w :
  fst (handleExecutePayment net w) = Returned tt
  /\ isExecuting (component (snd (handleExecutePayment net w)))
     = (if missing_fields (component w) then isExecuting (component w) else false).
Proof.
  page_unfold. destruct (missing_fields (component w)); simpl; [split; reflexivity|].
  repeat js_case; split; reflexivity.
Qed.

(** X10: when a network call of the payment fails, the toast the user sees
    carries the prefix twice, 'Payment failed: Payment failed: ' and the
    message; the form keeps its fields and the dialog, the last trade shown is
    the one there was, and nothing is sent after the failed request. *)
Theorem failed_payment_is_reported_with_two_prefixes w e requests :
  missing_fields (component w) = false ->
  payment_network_failure net w (destination (component w)) (amount (component w))
    (Some (fromCurrency (component w))) (Some (memo (component w))) e requests ->
  toasts (snd (handleExecutePayment net w))
    = toasts w
      ++ [{| toast_kind := toast_error;
             toast_message := "Payment failed: Payment failed: "
                              +:+ or_else (message e) "Unknown error" |}]
  /\ fields (component (snd (handleExecutePayment net w))) = fields (component w)
  /\ lastTrade (component (snd (handleExecutePayment net w))) = lastTrade (component w)
  /\ requests_of (handleExecutePayment net) w = requests.
Proof.
  intros Hm Hfail.
  assert (Hf := payment_failure_logged_frame (U:=State)).
  destruct Hfail as [kp Hk Hl|kp acct tx Hk Hl Hb Hs]; unfold requests_of;
    page_unfold; rewrite Hm; simpl.
  - erewrite executePayment_load_fails by (simpl; eassumption). simpl.
    rewrite !(proj1 (proj2 (Hf e _))), !(proj1 (proj2 (proj2 (proj2 (Hf e _))))),
      !(proj1 (proj2 (proj2 (proj2 (proj2 (Hf e _)))))). simpl.
    rewrite drop_app_length. repeat split.
  - erewrite executePayment_submit_fails by (simpl; eassumption). simpl.
    rewrite !(proj1 (proj2 (Hf e _))), !(proj1 (proj2 (proj2 (proj2 (Hf e _))))),
      !(proj1 (proj2 (proj2 (proj2 (proj2 (Hf e _)))))). simpl.
    rewrite <- app_assoc. simpl. rewrite drop_app_length. repeat split.
Qed.

(** X11: a click on 'Confirm' while the trader has no key pair sends nothing
    and tells the user 'Payment failed: Not connected. ...'; the form keeps
    its fields. *)
Theorem confirm_without_connection w :
  missing_fields (component w) = false ->
  keypair (trader w) = None ->
  requests_of (handleExecutePayment net) w = []
  /\ toasts (snd (handleExecutePayment net w))
     = toasts w
       ++ [{| toast_kind := toast_error;
              toast_message :=
                "Payment failed: Not connected. Call connect() with a valid secret key first."
           |}]
  /\ fields (component (snd (handleExecutePayment net w))) = fields (component w).
Proof.
  intros Hm Hk. unfold requests_of. page_unfold. rewrite Hm. simpl.
  erewrite executePayment_not_connected by (simpl; eassumption). simpl.
  rewrite drop_all. repeat split.
Qed.

(** X12: after a payment that went through, the form is cleared and the
    dialog closed unless the balance reload failed: when a secret key is
    stored and Horizon refuses the load of the account it names, the amount,
    destination and memo stay in the form and the dialog stays as it was,
    though the payment is made and kept as the last trade. *)
Theorem form_is_cleared_unless_the_reload_fails w kp acct tx result :
  missing_fields (component w) = false ->
  keypair (trader w) = Some kp ->
  loadAccount_reply net (horizon_log w) (server (trader w)) (publicKey kp) = inr acct ->
  payment_transaction (trader w) kp acct (destination (component w))
    (amount (component w)) (fromCurrency (component w)) (memo (component w)) = inr tx ->
  submitTransaction_reply net
    (horizon_log w ++ [LoadAccount (server (trader w)) (publicKey kp)])
    (server (trader w)) tx = inr result ->
  is_Some (lastTrade (component (snd (handleExecutePayment net w))))
  /\ fields (component (snd (handleExecutePayment net w)))
     = match stored_secret_key w with
       | Some secretKey =>
           match loadAccount_reply net
                   (horizon_log w ++ [LoadAccount (server (trader w)) (publicKey kp);
                                      SubmitTransaction (server (trader w)) tx])
                   (server (trader w)) secretKey with
           | inl _ => fields (component w)
           | inr _ => ("", "", "", false)
           end
       | None => ("", "", "", false)
       end.
Proof.
  intros Hm Hk Hl Hb Hs. page_unfold. rewrite Hm. simpl.
  erewrite executePayment_succeeds by (simpl; eassumption). simpl.
  unfold stored_secret_key.
  destruct (localStorage w !! "stellar_secret_key") as [sk|]; simpl; [|split; eauto].
  destruct (truthy sk); simpl; [|split; eauto].
  rewrite <- app_assoc. simpl.
  destruct (loadAccount_reply net
              (horizon_log w ++ [LoadAccount (server (trader w)) (publicKey kp);
                                 SubmitTransaction (server (trader w)) tx])
              (server (trader w)) sk) as [e|account] eqn:Hl2.
  - erewrite getAccountBalance_fails by (simpl; eassumption).
    simpl. split; eauto.
  - erewrite getAccountBalance_succeeds by (simpl; eassumption).
    simpl. split; eauto.
Qed.

Lemma send_click_when_ready w :
  is_Some (keypair (trader w)) ->
  showPaymentDialog (component (snd (handleOpenPaymentDialog w))) = true
  /\ toasts (snd (handleOpenPaymentDialog w)) = toasts w.
Proof. intros [kp Hk]. page_unfold. simpl. rewrite Hk. simpl. split; reflexivity. Qed.

(** X13: a click on 'Send Payment' opens the dialog exactly for a ready
    trader, and otherwise leaves the form alone and says 'Please connect your
    wallet first'; it sends nothing; and a payment made from a dialog that
    this click opened never fails for want of a connection. *)
Theorem send_opens_the_dialog_for_a_ready_trader w :
  (is_Some (keypair (trader w)) ->
   showPaymentDialog (component (snd (handleOpenPaymentDialog w))) = true
   /\ toasts (snd (handleOpenPaymentDialog w)) = toasts w)
  /\ (keypair (trader w) = None ->
      component (snd (handleOpenPaymentDialog w)) = component w
      /\ toasts (snd (handleOpenPaymentDialog w))
         = toasts w ++ [{| toast_kind := toast_error;
                           toast_message := "Please connect your wallet first" |}])
  /\ requests_of handleOpenPaymentDialog w = []
  /\ (showPaymentDialog (component w) = false ->
      showPaymentDialog (component (snd (handleOpenPaymentDialog w))) = true ->
      forall d a c m,
        fst (executePayment net d a c m (snd (handleOpenPaymentDialog w)))
        <> Thrown (new_Error "Not connected. Call connect() with a valid secret key first.")).
Proof.
  split; [|split; [|split]].
  - apply send_click_when_ready.
  - intros Hk. page_unfold. simpl. rewrite Hk. simpl. split; reflexivity.
  - unfold requests_of. page_unfold. simpl.
    destruct (keypair (trader w)); simpl; apply drop_all.
  - intros Hclosed Hopen d a c m Hthrown.
    pose proof (handleOpenPaymentDialog_same_trader w) as Htrader.
    destruct (keypair (trader w)) as [kp|] eqn:Hk.
    + pose proof (executePayment_runs net (snd (handleOpenPaymentDialog w)) d a c m) as Hrun.
      destruct (executePayment net d a c m (snd (handleOpenPaymentDialog w)))
        as [o w1]. simpl in Hthrown. subst o.
      unfold same_trader in Htrader.
      inversion Hrun as [Hnone| | | |]; subst; try discriminate.
      rewrite Htrader, Hk in Hnone. discriminate Hnone.
    + revert Hopen. page_unfold. simpl. rewrite Hk. simpl. congruence.
Qed.

(** *** The mount effect *)

(** X14: [connectToStellar] with no secret key in local storage, or an empty
    one, asks the user to set one and does nothing else: no [connect], no
    request, the trader, the badge and the balance as they were. *)
Theorem connectToStellar_without_key w :
  stored_secret_key w = None ->
  requests_of (connectToStellar net) w = []
  /\ trader (snd (connectToStellar net w)) = trader w
  /\ toasts (snd (connectToStellar net w))
     = toasts w
       ++ [{| toast_kind := toast_warning;
              toast_message := "Please set your Stellar secret key in the wallet settings"
           |}]
  /\ console (snd (connectToStellar net w)) = console w
  /\ stellarStatus (component (snd (connectToStellar net w)))
     = stellarStatus (component w)
  /\ balance (component (snd (connectToStellar net w))) = balance (component w).
Proof.
  unfold stored_secret_key, requests_of. intros Hsk. page_unfold. simpl.
  destruct (localStorage w !! "stellar_secret_key") as [sk|]; simpl.
  - destruct (truthy sk); [discriminate Hsk|]. simpl. rewrite drop_all. repeat split.
  - rewrite drop_all. repeat split.
Qed.

(** X15: [connectToStellar] with a stored secret that is no valid key tells
    the user nothing: no toast is shown; the refusal is on the console only,
    nothing is sent, and the trader and the badge are as they were. *)
Theorem connectToStellar_with_invalid_key_is_silent w secretKey e :
  stored_secret_key w = Some secretKey ->
  Keypair_fromSecret secretKey = inl e ->
  toasts (snd (connectToStellar net w)) = toasts w
  /\ console (snd (connectToStellar net w))
     = console w ++ [[log_string "Failed to connect with secret key:"; log_error e]]
  /\ requests_of (connectToStellar net) w = []
  /\ trader (snd (connectToStellar net w)) = trader w
  /\ stellarStatus (component (snd (connectToStellar net w)))
     = stellarStatus (component w).
Proof.
  unfold stored_secret_key, requests_of. intros Hsk Hs. page_unfold. simpl.
  destruct (localStorage w !! "stellar_secret_key") as [sk|]; [|discriminate Hsk].
  destruct (truthy sk); [|discriminate Hsk]. injection Hsk as ->. simpl.
  rewrite (connect_invalid _ secretKey e Hs). simpl. rewrite drop_all. repeat split.
Qed.

(** X16: [connectToStellar] with a stored valid secret makes the trader ready
    with the key pair of that secret, turns the badge to 'Connected', and
    sends one request: the load of the account named by the stored secret
    itself.  When Horizon answers with an account its balances are shown and
    'Connected to Stellar network' is said; when it refuses, the user is told
    'Connection failed: Failed to get account balance: ...' while the badge
    says 'Connected' and the trader is ready. *)
Theorem connectToStellar_with_valid_key w secretKey kp :
  stored_secret_key w = Some secretKey ->
  Keypair_fromSecret secretKey = inr kp ->
  keypair (trader (snd (connectToStellar net w))) = Some kp
  /\ stellarStatus (component (snd (connectToStellar net w))) = connected
  /\ requests_of (connectToStellar net) w = [LoadAccount (server (trader w)) secretKey]
  /\ match loadAccount_reply net (horizon_log w) (server (trader w)) secretKey with
     | inr account =>
         balance (component (snd (connectToStellar net w))) = Some (balances_of account)
         /\ toasts (snd (connectToStellar net w))
            = toasts w ++ [{| toast_kind := toast_success;
                              toast_message := "Connected to Stellar network" |}]
     | inl e =>
         balance (component (snd (connectToStellar net w))) = balance (component w)
         /\ toasts (snd (connectToStellar net w))
            = toasts w
              ++ [{| toast_kind := toast_error;
                     toast_message :=
                       "Connection failed: Failed to get account balance: "
                       +:+ or_else (message e) "Unknown error" |}]
     end.
Proof.
  unfold stored_secret_key, requests_of. intros Hsk Hs. page_unfold. simpl.
  destruct (localStorage w !! "stellar_secret_key") as [sk|]; [|discriminate Hsk].
  destruct (truthy sk); [|discriminate Hsk]. injection Hsk as ->. simpl.
  rewrite (connect_valid _ secretKey kp Hs). simpl.
  destruct (loadAccount_reply net (horizon_log w) (server (trader w)) secretKey)
    as [e|account] eqn:Hl.
  - erewrite getAccountBalance_fails by (simpl; eassumption). simpl.
    rewrite drop_app_length. repeat split.
  - erewrite getAccountBalance_succeeds by (simpl; eassumption). simpl.
    rewrite drop_app_length. repeat split.
Qed.

(** X17: [connectToStellar] never lets an error escape and never leaves the
    loading spinner on; it does not touch the form's fields, the last trade or
    the stored key. *)
Theorem connectToStellar_never_throws w :
  fst (connectToStellar net w) = Returned tt
  /\ isLoading (component (snd (connectToStellar net w))) = false
  /\ fields (component (snd (connectToStellar net w))) = fields (component w)
  /\ lastTrade (component (snd (connectToStellar net w))) = lastTrade (component w)
  /\ localStorage (snd (connectToStellar net w)) = localStorage w.
Proof.
  page_unfold. simpl.
  destruct (localStorage w !! "stellar_secret_key") as [sk|]; simpl; [|repeat split].
  destruct (truthy sk); simpl; [|repeat split].
  destruct (Keypair_fromSecret sk) as [e|kp] eqn:Hs.
  - rewrite (connect_invalid _ sk e Hs). simpl. repeat split.
  - rewrite (connect_valid _ sk kp Hs). simpl.
    destruct (loadAccount_reply net (horizon_log w) (server (trader w)) sk)
      as [e|account] eqn:Hl.
    + erewrite getAccountBalance_fails by (simpl; eassumption). simpl. repeat split.
    + erewrite getAccountBalance_succeeds by (simpl; eassumption). simpl. repeat split.
Qed.

(** X18: the balance reload after a payment names the stored secret: when
    the payment goes through and a non-empty secret key is in local storage,
    the third and last request of the click is the load of the account whose
    id is that stored string, whatever the account of the key pair is. *)
Theorem reload_names_the_stored_secret w kp acct tx result secretKey :
  missing_fields (component w) = false ->
  keypair (trader w) = Some kp ->
  loadAccount_reply net (horizon_log w) (server (trader w)) (publicKey kp) = inr acct ->
  payment_transaction (trader w) kp acct (destination (component w))
    (amount (component w)) (fromCurrency (component w)) (memo (component w)) = inr tx ->
  submitTransaction_reply net
    (horizon_log w ++ [LoadAccount (server (trader w)) (publicKey kp)])
    (server (trader w)) tx = inr result ->
  stored_secret_key w = Some secretKey ->
  requests_of (handleExecutePayment net) w
    = [LoadAccount (server (trader w)) (publicKey kp);
       SubmitTransaction (server (trader w)) tx;
       LoadAccount (server (trader w)) secretKey].
Proof.
  intros Hm Hk Hl Hb Hs Hsk.
  exact (proj1 (handleExecutePayment_with_stored_key net w kp acct tx result secretKey
                  Hm Hk Hl Hb Hs Hsk)).
Qed.

(** *** The page over time *)


Lemma update_keeps_trader f w : trader (snd (update f w)) = trader w.
Proof. reflexivity. Qed.


Lemma getAccountBalance_keeps w accountId :
  trader (snd (getAccountBalance net accountId w)) = trader w
  /\ component (snd (getAccountBalance net accountId w)) = component w.
Proof.
  split; [apply (getAccountBalance_same_trader net accountId w)|].
  apply (getAccountBalance_same_page net accountId w).
Qed.






(** A click on 'Confirm' shows as last trade the one there was or a
    completed one. *)
Lemma confirm_last_trade w :
  lastTrade (component (snd (handleExecutePayment net w))) = lastTrade (component w)
  \/ exists r,
       lastTrade (component (snd (handleExecutePayment net w))) = Some r
       /\ status r = completed.
Proof.
  page_unfold. destruct (missing_fields (component w)); simpl; [now left|].
  match goal with
  | |- context [executePayment net ?d ?a ?c ?m ?w0] =>
      destruct (executePayment net d a c m w0) as [[r|e] w1] eqn:Hrun
  end; simpl.
  - apply executePayment_returns in Hrun as (Hs & _ & _ & _ & Hc). simpl in *.
    rewrite Hc. simpl. right. exists r. split; [|exact Hs].
    destruct (localStorage w1 !! "stellar_secret_key") as [sk|]; simpl;
      [|reflexivity].
    destruct (truthy sk); simpl; [|reflexivity].
    match goal with
    | |- context [getAccountBalance net sk ?w2] =>
        pose proof (getAccountBalance_keeps w2 sk) as (_ & Hc2);
        destruct (getAccountBalance net sk w2) as [[b|e2] w3]
    end; simpl in *; rewrite Hc2; reflexivity.
  - apply executePayment_throws in Hrun as (_ & Hc & _). simpl in *.
    rewrite Hc. simpl. now left.
Qed.

(** The mount effect with a stored valid secret sets the key pair of that
    secret, whatever key pair there was. *)
Lemma connectToStellar_sets_the_key w secretKey kp :
  stored_secret_key w = Some secretKey ->
  Keypair_fromSecret secretKey = inr kp ->
  keypair (trader (snd (connectToStellar net w))) = Some kp.
Proof.
  unfold stored_secret_key. intros Hsk Hs. page_unfold. simpl.
  destruct (localStorage w !! "stellar_secret_key") as [sk|]; [|discriminate Hsk].
  destruct (truthy sk); [|discriminate Hsk]. injection Hsk as ->. simpl.
  rewrite (connect_valid _ secretKey kp Hs). simpl.
  match goal with
  | |- context [getAccountBalance net secretKey ?w2] =>
      pose proof (getAccountBalance_keeps w2 secretKey) as (Ht2 & _);
      destruct (getAccountBalance net secretKey w2) as [[b|e2] w3]
  end; simpl in *; now rewrite Ht2.
Qed.

(** X20: the badge can say 'Disconnected' while payments are possible: when
    the form mounts again with a ready trader and no stored key, the badge is
    'Disconnected', the trader is still ready, and 'Send Payment' opens the
    dialog. *)
Theorem remount_without_key_shows_disconnected w :
  is_Some (keypair (trader w)) ->
  stored_secret_key w = None ->
  stellarStatus (component (snd (mount net w))) = disconnected
  /\ is_Some (keypair (trader (snd (mount net w))))
  /\ showPaymentDialog
       (component (snd (handleOpenPaymentDialog (snd (mount net w))))) = true.
Proof.
  intros [kp Hk] Hsk.
  assert (Ht : trader (snd (mount net w)) = trader w
               /\ stellarStatus (component (snd (mount net w))) = disconnected).
  { revert Hsk. unfold stored_secret_key. page_unfold. simpl.
    destruct (localStorage w !! "stellar_secret_key") as [sk|]; simpl;
      [|split; reflexivity].
    destruct (truthy sk); [discriminate|]. simpl. split; reflexivity. }
  destruct Ht as [Ht Hs]. split; [exact Hs|]. split; [rewrite Ht, Hk; eauto|].
  apply send_click_when_ready. rewrite Ht, Hk. eauto.
Qed.

End MoreOfTheForm.

(** ** More of the transaction list *)

Section MoreOfTheList.

Import TransactionList.

Context {rt : JsRuntime}.

(** X21: the currency tag and the title of an item are never empty: a
    conversion shows its target currency or 'INR', any other transaction its
    wallet type in upper case or 'UNKNOWN', and a transaction without a name
    is titled 'Unknown'. *)
Theorem list_labels_are_never_empty (t : Transaction) i :
  truthy (getCurrency t) = true
  /\ truthy (title (renderItem i t)) = true
  /\ match type t with
     | convert =>
         getCurrency t = "INR" \/ target_currency t = Some (getCurrency t)
     | sent | received =>
         getCurrency t = "UNKNOWN"
         \/ toUpperCase <$> wallet_type t = Some (getCurrency t)
     end
  /\ (name t = "" -> title (renderItem i t) = "Unknown").
Proof.
  assert (Hor : forall o d, or_else o d = d \/ o = Some (or_else o d)).
  { intros [s|] d; simpl; [|now left]. destruct (truthy s); auto. }
  split; [|split; [|split]].
  - unfold getCurrency. destruct (type t); apply or_else_truthy; reflexivity.
  - simpl. destruct (truthy (name t)) eqn:Hname; [exact Hname|reflexivity].
  - unfold getCurrency. destruct (type t); apply Hor.
  - intros Hname. simpl. now rewrite Hname.
Qed.

(** X22: the sign an item shows comes from the transaction's type alone and
    the figure from the amount's absolute value alone: two amounts of the same
    absolute value draw the same item. *)
Theorem item_ignores_the_sign_of_the_amount (t : Transaction) i x :
  Math_abs x = Math_abs (amount t) ->
  renderItem i (with_amount x t) = renderItem i t.
Proof.
  intros Habs. unfold renderItem, getCurrency. simpl. now rewrite Habs.
Qed.

(** X23: on a runtime whose [toUpperCase] maps the letters c, p and f to C,
    P and F, the badge of an item reads 'Completed', 'Pending' or 'Failed',
    after the status of its transaction. *)
Theorem badge_reads_the_capitalised_status (t : Transaction) i :
  toUpperCase "c" = "C" -> toUpperCase "p" = "P" -> toUpperCase "f" = "F" ->
  badgeText (renderItem i t)
    = match status t with
      | completed => "Completed"
      | pending => "Pending"
      | failed => "Failed"
      end.
Proof.
  intros Hc Hp Hf. simpl. destruct (status t); simpl; now rewrite ?Hc, ?Hp, ?Hf.
Qed.

End MoreOfTheList.

(** ** More of what the form draws *)

Section MoreOfTheView.

Import StellarClient StellarTradeExecutor.

Context {rt : JsRuntime}.









(** X25: when 'Send Payment' is enabled no payment is running and the amount
    and the destination are filled in, so a click on 'Confirm' from that form
    is refused by the guard exactly when the amount is not a number. *)
Theorem enabled_send_button_leaves_one_refusal (le_0 : JsNumber -> bool) (st : State) :
  sendDisabled le_0 st = false ->
  confirmDisabled st = false
  /\ truthy (amount st) = true
  /\ truthy (destination st) = true
  /\ le_0 (parseFloat (amount st)) = false
  /\ missing_fields st = isNaN (Number (amount st)).
Proof.
  unfold sendDisabled, confirmDisabled, missing_fields. intros H.
  destruct (isExecuting st), (truthy (amount st)), (truthy (destination st));
    simpl in *; try discriminate H.
  repeat split; [exact H|]. now destruct (isNaN (Number (amount st))).
Qed.

End MoreOfTheView.

(** ** The key holder and the status labels *)

Section KeyHolderAndLabels.

Import Stellar StellarClient StellarTradeExecutor.

Context {rt : JsRuntime} {sdk : StellarSdk} (net : Horizon) {U : Type}.

Lemma status_labels_exact l : l ∈ status_labels <-> exists s, status_string s = l.
Proof.
  unfold status_labels. rewrite !elem_of_cons, elem_of_nil. split.
  - intros [->|[->|[->|[]]]];
      [exists pending|exists completed|exists failed]; reflexivity.
  - intros [[] <-]; simpl; auto.
Qed.

Lemma transaction_status_labels_exact l :
  l ∈ status_labels <-> exists s, TransactionList.status_string s = l.
Proof.
  unfold status_labels. rewrite !elem_of_cons, elem_of_nil. split.
  - intros [->|[->|[->|[]]]];
      [exists TransactionList.pending|exists TransactionList.completed
      |exists TransactionList.failed]; reflexivity.
  - intros [[] <-]; simpl; auto.
Qed.

(** C4, as amended: the key pair is the only field of the trader that is
    written after construction, and [connect] is the only method that writes
    it, but it is not set once: a new trader has none, and every [connect]
    with a valid secret replaces the key pair there is with the one of that
    secret (an invalid secret leaves it), as does the form's mount effect on
    every mount with a valid stored secret; [executePayment],
    [getAccountBalance] and [isReady], and the form's handlers that call
    them, leave every field of the trader as it was, whether they return or
    throw; [connect] and the mount effect leave the server and the network
    passphrase as they were. *)
Theorem key_pair_is_replaced_by_each_valid_connect
    (w : World U) d a c m accountId secretKey network (wf : World State) :
  keypair (StellarTrader_new network) = None
  /\ trader (snd (executePayment net d a c m w)) = trader w
  /\ trader (snd (getAccountBalance net accountId w)) = trader w
  /\ trader (snd (isReady w)) = trader w
  /\ trader (snd (handleExecutePayment net wf)) = trader wf
  /\ trader (snd (handleOpenPaymentDialog wf)) = trader wf
  /\ server (trader (snd (connect secretKey w))) = server (trader w)
  /\ networkPassphrase (trader (snd (connect secretKey w))) = networkPassphrase (trader w)
  /\ server (trader (snd (connectToStellar net wf))) = server (trader wf)
  /\ networkPassphrase (trader (snd (connectToStellar net wf)))
     = networkPassphrase (trader wf)
  /\ keypair (trader (snd (connect secretKey w)))
     = match Keypair_fromSecret secretKey with
       | inr kp => Some kp
       | inl _ => keypair (trader w)
       end
  /\ (forall stored kp,
       stored_secret_key wf = Some stored ->
       Keypair_fromSecret stored = inr kp ->
       keypair (trader (snd (connectToStellar net wf))) = Some kp).
Proof.
  destruct (trader_is_written_by_connect_alone net w d a c m accountId secretKey
              network wf)
    as (Hnew & Hpay & Hbal & Hready & Hconfirm & Hsend & Hsrv & Hpass & Hsrv' & Hpass'
        & _).
  repeat (split; [assumption|]). split.
  - destruct (Keypair_fromSecret secretKey) as [e|kp] eqn:Hs.
    + now rewrite (connect_invalid w secretKey e Hs).
    + now rewrite (connect_valid w secretKey kp Hs).
  - intros stored kp Hsk Hs. now apply (connectToStellar_sets_the_key net wf stored kp).
Qed.

(** C6: the labels of a status are exactly 'pending', 'completed' and
    'failed', for a trade result and for a transaction record alike; the
    trade result that [executePayment] produces carries 'completed'; a click
    on 'Confirm' shows as last trade the one there was or a completed one;
    and when the list is drawn, the badge of each transaction, in turn, reads
    the label of its status with the first character in upper case and the
    rest as it is, in the colour class of that status. *)
Theorem status_is_one_of_three_labels (w : World U) d a c m (wf : World State) props :
  (forall l, l ∈ status_labels <-> exists s, status_string s = l)
  /\ (forall l, l ∈ status_labels <-> exists s, TransactionList.status_string s = l)
  /\ match fst (executePayment net d a c m w) with
     | Returned r => status r = completed /\ status_string (status r) = "completed"
     | Thrown _ => True
     end
  /\ (lastTrade (component (snd (handleExecutePayment net wf)))
       = lastTrade (component wf)
     \/ exists r,
          lastTrade (component (snd (handleExecutePayment net wf))) = Some r
          /\ status_string (status r) = "completed")
  /\ match TransactionList.TransactionList props with
     | inr drawn =>
         Forall2
           (fun t item =>
              exists label,
                label = TransactionList.status_string (TransactionList.status t)
                /\ label ∈ status_labels
                /\ TransactionList.charAt_0 label +:+ TransactionList.slice_1 label
                   = label
                /\ TransactionList.badgeText item
                   = toUpperCase (TransactionList.charAt_0 label)
                     +:+ TransactionList.slice_1 label
                /\ TransactionList.badgeClass item
                   = "text-[10px] mt-1 "
                     +:+ TransactionList.getStatusColor (TransactionList.status t))
           (TransactionList.transactions props) (TransactionList.items_shown drawn)
     | inl _ => True
     end.
Proof.
  split; [apply status_labels_exact|].
  split; [apply transaction_status_labels_exact|].
  split; [|split].
  - generalize (executePayment_runs net w d a c m).
    generalize (executePayment net d a c m w). intros run Hrun.
    destruct Hrun; simpl; auto.
  - destruct (confirm_last_trade net wf) as [Hsame|(r & Hlast & Hs)]; [now left|].
    right. exists r. split; [exact Hlast|]. now rewrite Hs.
  - unfold TransactionList.TransactionList.
    destruct (default true (TransactionList.showViewAll props)); [trivial|].
    assert (Hitems : TransactionList.items_shown
                       {| TransactionList.heading := "Recent Transactions";
                          TransactionList.viewAll := false;
                          TransactionList.listing :=
                            match TransactionList.transactions props with
                            | [] => TransactionList.Placeholder "No transactions yet"
                            | _ :: _ =>
                                TransactionList.Items
                                  (imap TransactionList.renderItem
                                     (TransactionList.transactions props))
                            end |}
                     = imap TransactionList.renderItem
                         (TransactionList.transactions props)).
    { unfold TransactionList.items_shown. simpl.
      destruct (TransactionList.transactions props); reflexivity. }
    rewrite Hitems. apply Forall2_same_length_lookup. split.
    + now rewrite length_imap.
    + intros i t item Ht Hitem. rewrite list_lookup_imap, Ht in Hitem.
      injection Hitem as <-. eexists. split; [reflexivity|].
      split; [apply transaction_status_labels_exact; eauto|].
      split; [now destruct (TransactionList.status t)|]. split; reflexivity.
Qed.

End KeyHolderAndLabels.

(** ** More runs on the small instance *)

Section MoreExamples.

Import Stellar StellarClient StellarTradeExecutor.

Local Abbreviation page := (Demo.page "25" "GBOB").
Local Abbreviation pay net :=
  (@executePayment Demo.runtime Demo.sdk net (@State Demo.runtime)).
Local Abbreviation confirm net := (@handleExecutePayment Demo.runtime Demo.sdk net).
Local Abbreviation effect net := (@connectToStellar Demo.runtime Demo.sdk net).
Local Abbreviation alice := ("SALICE" : @Keypair Demo.sdk).

(** The singleton before [connect]. *)
Lemma fresh_page_is_not_connected :
  trader (Demo.fresh "25" "GBOB") = StellarTrader_new (Some testnet)
  /\ pay Demo.network "GBOB" "25" (Some "XLM") (Some "rent") (Demo.fresh "25" "GBOB")
     = (Thrown (new_Error "Not connected. Call connect() with a valid secret key first."),
        Demo.fresh "25" "GBOB").
Proof.
  assert (Hnew : trader (Demo.fresh "25" "GBOB") = StellarTrader_new (Some testnet))
    by reflexivity.
  split; [exact Hnew|].
  exact (proj1 (proj2 (new_trader_changes_nothing Demo.network (Demo.fresh "25" "GBOB")
                         (Some testnet) "GBOB" "25" (Some "XLM") (Some "rent") Hnew))).
Defined.

(** The balances of the account [GALICE]. *)
Lemma balances_of_alice :
  loadAccount_reply Demo.network (horizon_log page) (server (trader page)) "GALICE"
    = inr (Demo.account_of "GALICE")
  /\ exists b,
       fst (@getAccountBalance Demo.sdk Demo.network _ "GALICE" page) = Returned b
       /\ usd b = "0".
Proof.
  assert (Hl : loadAccount_reply Demo.network (horizon_log page) (server (trader page))
                 "GALICE" = inr (Demo.account_of "GALICE")) by reflexivity.
  split; [exact Hl|].
  destruct (getAccountBalance_reads_the_lines Demo.network page "GALICE"
              (Demo.account_of "GALICE") Hl) as (b & Hb & _ & _ & _ & Husd).
  exists b. split; [exact Hb|]. apply Husd.
  intros line Hin. apply list_elem_of_singleton in Hin as ->. discriminate.
Defined.

(** What the payment of the page submits. *)
Lemma payment_of_the_page_is_signed_by_alice :
  SubmitTransaction Demo.horizon Demo.payment
    ∈ requests_of (pay Demo.network "GBOB" "25" (Some "XLM") (Some "rent")) page
  /\ exists kp, keypair (trader page) = Some kp /\ tx_signatures Demo.payment = [kp].
Proof.
  assert (Hin : SubmitTransaction Demo.horizon Demo.payment
                  ∈ requests_of (pay Demo.network "GBOB" "25" (Some "XLM") (Some "rent"))
                      page).
  { assert (Hreq : requests_of (pay Demo.network "GBOB" "25" (Some "XLM") (Some "rent"))
                     page
                   = [LoadAccount Demo.horizon "GALICE";
                      SubmitTransaction Demo.horizon Demo.payment])
      by (vm_compute; reflexivity).
    rewrite Hreq. apply list_elem_of_further, list_elem_of_here. }
  split; [exact Hin|].
  destruct (submitted_payment_content Demo.network page "GBOB" "25" (Some "XLM")
              (Some "rent") Demo.horizon Demo.payment Hin)
    as (kp & Hk & _ & _ & Hsig & _).
  exists kp. split; assumption.
Defined.

(** A destination that the sdk rejects. *)
Lemma invalid_destination_is_not_submitted :
  payment_transaction (trader (Demo.page "25" "BOB")) alice (Demo.account_of "GALICE")
    "BOB" "25" "XLM" "rent" = inl (new_Error "destination is invalid")
  /\ fst (pay Demo.network "BOB" "25" (Some "XLM") (Some "rent") (Demo.page "25" "BOB"))
     = Thrown (new_Error "Payment failed: destination is invalid").
Proof.
  assert (Hb : payment_transaction (trader (Demo.page "25" "BOB")) alice
                 (Demo.account_of "GALICE") "BOB" "25" (default "XLM" (Some "XLM"))
                 (default "" (Some "rent")) = inl (new_Error "destination is invalid"))
    by reflexivity.
  split; [exact Hb|].
  exact (proj1 (sdk_rejection_stops_before_submission Demo.network (Demo.page "25" "BOB")
                  "BOB" "25" (Some "XLM") (Some "rent") alice (Demo.account_of "GALICE")
                  (new_Error "destination is invalid") eq_refl eq_refl Hb)).
Defined.

(** The toast after a submission that Horizon rejects. *)
Lemma rejected_payment_toast :
  missing_fields (component page) = false
  /\ toasts (snd (confirm Demo.rejecting page))
     = [{| toast_kind := toast_error;
           toast_message :=
             "Payment failed: Payment failed: Request failed with status code 400" |}].
Proof.
  assert (Hm : missing_fields (component page) = false) by reflexivity.
  assert (Hfail : payment_network_failure Demo.rejecting page
                    (destination (component page)) (amount (component page))
                    (Some (fromCurrency (component page))) (Some (memo (component page)))
                    Demo.bad_request
                    [LoadAccount Demo.horizon "GALICE";
                     SubmitTransaction Demo.horizon Demo.payment])
    by (apply (submit_failure Demo.rejecting page "GBOB" "25" (Some "XLM") (Some "rent")
                 Demo.bad_request alice (Demo.account_of "GALICE") Demo.payment);
        reflexivity).
  split; [exact Hm|].
  exact (proj1 (failed_payment_is_reported_with_two_prefixes Demo.rejecting page
                  Demo.bad_request _ Hm Hfail)).
Defined.

(** A click on 'Confirm' before [connect]. *)
Lemma confirm_on_the_fresh_page :
  missing_fields (component (Demo.fresh "25" "GBOB")) = false
  /\ keypair (trader (Demo.fresh "25" "GBOB")) = None
  /\ requests_of (confirm Demo.network) (Demo.fresh "25" "GBOB") = [].
Proof.
  assert (Hm : missing_fields (component (Demo.fresh "25" "GBOB")) = false)
    by reflexivity.
  assert (Hk : keypair (trader (Demo.fresh "25" "GBOB")) = None) by reflexivity.
  split; [exact Hm|]. split; [exact Hk|].
  exact (proj1 (confirm_without_connection Demo.network (Demo.fresh "25" "GBOB") Hm Hk)).
Defined.

(** On the page, where Horizon knows no account [SALICE], the form is not
    cleared after the payment. *)
Lemma form_of_the_page_is_not_cleared :
  (missing_fields (component page) = false
   /\ keypair (trader page) = Some alice
   /\ stored_secret_key page = Some "SALICE")
  /\ fields (component (snd (confirm Demo.network page))) = ("25", "GBOB", "rent", true)
  /\ is_Some (lastTrade (component (snd (confirm Demo.network page)))).
Proof.
  assert (Hm : missing_fields (component page) = false) by reflexivity.
  assert (Hk : keypair (trader page) = Some alice) by reflexivity.
  assert (Hsk : stored_secret_key page = Some "SALICE") by (vm_compute; reflexivity).
  destruct (form_is_cleared_unless_the_reload_fails Demo.network page alice
              (Demo.account_of "GALICE") Demo.payment Demo.receipt
              Hm Hk eq_refl eq_refl eq_refl) as (Hlast & Hfields).
  rewrite Hsk in Hfields. split; [repeat split; assumption|].
  split; [exact Hfields|exact Hlast].
Defined.

(** The third request of the page's payment. *)
Lemma reload_on_the_page :
  stored_secret_key page = Some "SALICE"
  /\ requests_of (confirm Demo.network) page
     = [LoadAccount (server (trader page)) (publicKey alice);
        SubmitTransaction (server (trader page)) Demo.payment;
        LoadAccount (server (trader page)) "SALICE"].
Proof.
  assert (Hsk : stored_secret_key page = Some "SALICE") by (vm_compute; reflexivity).
  split; [exact Hsk|].
  exact (reload_names_the_stored_secret Demo.network page alice
           (Demo.account_of "GALICE") Demo.payment Demo.receipt "SALICE"
           eq_refl eq_refl eq_refl eq_refl eq_refl Hsk).
Defined.

(** The mount effect with nothing stored. *)
Lemma effect_without_key :
  stored_secret_key (Demo.keyless "25" "GBOB") = None
  /\ requests_of (effect Demo.network) (Demo.keyless "25" "GBOB") = [].
Proof.
  assert (Hsk : stored_secret_key (Demo.keyless "25" "GBOB") = None)
    by (vm_compute; reflexivity).
  split; [exact Hsk|].
  exact (proj1 (connectToStellar_without_key Demo.network (Demo.keyless "25" "GBOB") Hsk)).
Defined.

(** The mount effect with a stored secret that is no key. *)
Lemma effect_with_mistyped_key :
  stored_secret_key (Demo.mistyped "25" "GBOB") = Some "oops"
  /\ Keypair_fromSecret (StellarSdk:=Demo.sdk) "oops"
     = inl (new_Error "invalid encoded string")
  /\ toasts (snd (effect Demo.network (Demo.mistyped "25" "GBOB"))) = [].
Proof.
  assert (Hsk : stored_secret_key (Demo.mistyped "25" "GBOB") = Some "oops")
    by (vm_compute; reflexivity).
  assert (Hs : Keypair_fromSecret (StellarSdk:=Demo.sdk) "oops"
               = inl (new_Error "invalid encoded string")) by reflexivity.
  split; [exact Hsk|]. split; [exact Hs|].
  exact (proj1 (connectToStellar_with_invalid_key_is_silent Demo.network
                  (Demo.mistyped "25" "GBOB") "oops" _ Hsk Hs)).
Defined.

(** The mount effect with the key of [SALICE] stored. *)
Lemma effect_with_the_key_of_alice :
  stored_secret_key (Demo.fresh "25" "GBOB") = Some "SALICE"
  /\ Keypair_fromSecret (StellarSdk:=Demo.sdk) "SALICE" = inr alice
  /\ keypair (trader (snd (effect Demo.network (Demo.fresh "25" "GBOB")))) = Some alice
  /\ requests_of (effect Demo.network) (Demo.fresh "25" "GBOB")
     = [LoadAccount Demo.horizon "SALICE"].
Proof.
  assert (Hsk : stored_secret_key (Demo.fresh "25" "GBOB") = Some "SALICE")
    by (vm_compute; reflexivity).
  assert (Hs : Keypair_fromSecret (StellarSdk:=Demo.sdk) "SALICE" = inr alice)
    by reflexivity.
  destruct (connectToStellar_with_valid_key Demo.network (Demo.fresh "25" "GBOB")
              "SALICE" alice Hsk Hs) as (Hk & _ & Hreq & _).
  split; [exact Hsk|]. split; [exact Hs|]. split; [exact Hk|exact Hreq].
Defined.

(** A ready trader behind a form that says 'Disconnected'. *)
Lemma keyless_remount :
  is_Some (keypair (trader (Demo.keyless "25" "GBOB")))
  /\ stored_secret_key (Demo.keyless "25" "GBOB") = None
  /\ stellarStatus
       (component (snd (@mount Demo.runtime Demo.sdk Demo.network
                          (Demo.keyless "25" "GBOB")))) = disconnected.
Proof.
  assert (Hready : is_Some (keypair (trader (Demo.keyless "25" "GBOB"))))
    by (exists alice; reflexivity).
  assert (Hsk : stored_secret_key (Demo.keyless "25" "GBOB") = None)
    by (vm_compute; reflexivity).
  split; [exact Hready|]. split; [exact Hsk|].
  exact (proj1 (remount_without_key_shows_disconnected Demo.network
                  (Demo.keyless "25" "GBOB") Hready Hsk)).
Defined.

(** A salary booked with a negative amount is drawn like the salary. *)
Lemma negative_salary_is_drawn_alike :
  Math_abs Demo.negative = Math_abs (TransactionList.amount Demo.salary)
  /\ TransactionList.renderItem 0 (with_amount Demo.negative Demo.salary)
     = TransactionList.renderItem 0 Demo.salary.
Proof.
  assert (Habs : Math_abs Demo.negative = Math_abs (TransactionList.amount Demo.salary))
    by reflexivity.
  split; [exact Habs|].
  exact (item_ignores_the_sign_of_the_amount Demo.salary 0 Demo.negative Habs).
Defined.

(** The badge of the salary. *)
Lemma badge_of_the_salary :
  (toUpperCase (JsRuntime:=Demo.signed) "c" = "C"
   /\ toUpperCase (JsRuntime:=Demo.signed) "p" = "P"
   /\ toUpperCase (JsRuntime:=Demo.signed) "f" = "F")
  /\ TransactionList.badgeText (TransactionList.renderItem 0 Demo.salary) = "Completed".
Proof.
  split; [repeat split|].
  exact (badge_reads_the_capitalised_status Demo.salary 0 eq_refl eq_refl eq_refl).
Defined.


(** The form of the page with 'Send Payment' enabled. *)
Lemma send_is_enabled_on_the_page :
  @sendDisabled Demo.runtime Demo.le_0 (Demo.form "25" "GBOB") = false
  /\ @missing_fields Demo.runtime (Demo.form "25" "GBOB")
     = @isNaN Demo.runtime (Number (amount (Demo.form "25" "GBOB"))).
Proof.
  assert (Hsend : @sendDisabled Demo.runtime Demo.le_0 (Demo.form "25" "GBOB") = false)
    by reflexivity.
  split; [exact Hsend|].
  exact (proj2 (proj2 (proj2 (proj2
           (@enabled_send_button_leaves_one_refusal Demo.runtime Demo.le_0
              (Demo.form "25" "GBOB") Hsend))))).
Defined.

(** C4, as stated, fails: the trader of the page has the key pair of
    [SALICE], and a [connect] with the secret [SBOB] sets another. *)
Lemma key_pair_is_set_again :
  ~ set_once (sdk:=Demo.sdk) "SBOB" page.
Proof.
  intros Honce.
  assert (Hready : is_Some (keypair (trader page))) by (exists alice; reflexivity).
  specialize (Honce Hready). vm_compute in Honce. discriminate Honce.
Qed.

(** On the page, the key pair after [connect] with the secret [SBOB]. *)
Lemma key_pair_of_bob_replaces_the_one_of_alice :
  keypair (trader page) = Some alice
  /\ keypair (trader (snd (connect "SBOB" page))) = Some ("SBOB" : @Keypair Demo.sdk).
Proof.
  split; [reflexivity|].
  destruct (@key_pair_is_replaced_by_each_valid_connect Demo.runtime Demo.sdk
              Demo.network _ page "GBOB" "25" (Some "XLM") (Some "rent") "GALICE"
              "SBOB" None page)
    as (_ & _ & _ & _ & _ & _ & _ & _ & _ & _ & Hkey & _).
  exact Hkey.
Defined.

(** A list of one salary, with 'View All' as it is by default and without. *)
Lemma salary_is_drawn_only_without_view_all :
  TransactionList.TransactionList
    {| TransactionList.transactions := [Demo.salary];
       TransactionList.showViewAll := None |}
    = inl (new_Error "ArrowRight is not defined")
  /\ exists drawn,
       TransactionList.TransactionList
         {| TransactionList.transactions := [Demo.salary];
            TransactionList.showViewAll := Some false |} = inr drawn
       /\ TransactionList.viewAll drawn = false.
Proof.
  split.
  - apply (proj1 (list_is_drawn_only_without_view_all
                    {| TransactionList.transactions := [Demo.salary];
                       TransactionList.showViewAll := None |})).
    discriminate.
  - destruct (proj2 (list_is_drawn_only_without_view_all
                       {| TransactionList.transactions := [Demo.salary];
                          TransactionList.showViewAll := Some false |}) eq_refl)
      as (drawn & Hdrawn & Hview & _).
    exists drawn. split; assumption.
Defined.


End MoreExamples.
